(** * RehabMotionEvalSystem: the realtime session layer of the browser client

    A shallow embedding of [WebSocketClient] and [ActionSelector]
    (websocket and action-selector scripts) and of [RehabEvaluationApp]
    (frontend/scripts/main.js), with the properties of the session protocol
    proved over it.

    The scripts are event driven and single threaded: every handler runs to
    completion, mutates the objects of the page and may throw.  A handler is
    embedded as a computation in a state-and-exception monad over one [State]
    record; an exception keeps the effects made before it, as in JavaScript.
    Listeners are closures in the source; here a registry holds a tag per
    closure and each class is generic in the function that runs a tag. *)

From Stdlib Require Import QArith.
From stdpp Require Import base strings list gmap.

Close Scope Q_scope.

(** ** JavaScript values

    What [JSON.parse] returns, plus [undefined] (the result of reading an
    absent property).  A number is the rational its double denotes. *)

#[warnings="-register-all"]
Inductive value : Type :=
| VUndefined
| VNull
| VBool (b : bool)
| VNum (n : Q)
| VStr (s : string)
| VArr (elems : list value)
| VObj (fields : list (string * value)).

Inductive error : Type :=
| TypeError (message : string)
| SyntaxError
| Error (message : string).

(** [if (v)]: the falsy values are undefined, null, false, 0 and "". *)
Definition truthy (v : value) : bool :=
  match v with
  | VUndefined | VNull => false
  | VBool b => b
  | VNum n => negb (Qeq_bool n 0)
  | VStr s => negb (String.eqb s "")
  | VArr _ | VObj _ => true
  end.

(** [a === b].  Primitives compare by value; two objects or arrays compare by
    reference, and the operands the scripts compare never share one (one side
    is read from a freshly parsed message or is a string), hence [false]. *)
Definition strict_equal (a b : value) : bool :=
  match a, b with
  | VUndefined, VUndefined | VNull, VNull => true
  | VBool x, VBool y => Bool.eqb x y
  | VNum x, VNum y => Qeq_bool x y
  | VStr x, VStr y => String.eqb x y
  | _, _ => false
  end.

Fixpoint assoc (k : string) (fields : list (string * value)) : option value :=
  match fields with
  | [] => None
  | (k', v) :: rest => if String.eqb k k' then Some v else assoc k rest
  end.

(** [v.k] for the property names the scripts read (type, data, count, stage,
    angle, message, actions, action_name, id, name): [None] is the TypeError
    of reading a property of null or undefined; primitives and arrays have no
    such property. *)
Definition prop (v : value) (k : string) : option value :=
  match v with
  | VUndefined | VNull => None
  | VObj fields => Some (default VUndefined (assoc k fields))
  | _ => Some VUndefined
  end.

(** ** The page

    The text shown by an element is kept as the expression assigned to its
    [textContent], so that no number formatting has to be modelled. *)

Inductive text : Type :=
| Lit (s : string)
| ToString (v : value)
| ToUpperCase (s : string)
| ToFixed1Deg (n : Q).

Inductive consoleLine : Type :=
| ConsoleLog (s : string)
| ConsoleWarn (s : string)
| ConsoleError (s : string).

Record selectElementT : Type := mkSelect {
  options : list (text * text);   (* value, textContent of each option *)
  selectValue : string;
  changeListeners : nat
}.

(** ** Objects of the scripts *)

Inductive readyStateT : Type := CONNECTING | OPEN | CLOSING | CLOSED.

#[global] Instance readyStateT_eq_dec : EqDecision readyStateT.
Proof. solve_decision. Defined.

(** The listeners the application registers: the four arrow functions of
    [initWebSocket], the [handleMessage] closure of each
    [ActionSelector.fetchActions] call (one per promise), and the arrow
    function of [initActionSelector]. *)
Inductive wsCallback : Type :=
| AppOnOpen
| AppOnMessage
| AppOnClose
| AppOnError
| FetchHandleMessage (p : nat).

#[global] Instance wsCallback_eq_dec : EqDecision wsCallback.
Proof. solve_decision. Defined.

Inductive selectorCallback : Type :=
| AppOnActionChange.

Record WebSocketClientT : Type := mkWs {
  socket : option readyStateT;    (* this.socket: null, or its readyState *)
  connected : bool;
  callbacks : gmap string (list wsCallback)
}.

Record ActionSelectorT : Type := mkSel {
  selectElement : selectElementT;
  currentActionElement : text;
  countElement : text;
  stageElement : text;
  stageColor : string;
  angleElement : text;
  actions : value;
  selectedAction : value;
  selectorCallbacks : gmap string (list selectorCallback)
}.

Inductive promiseT : Type := Pending | Fulfilled | Rejected.

(** A call received by the result sink, in the order it was made. *)
Inductive sinkCall : Type :=
| UpdateStats (stats : value)
| HandleProcessedFrame (result : value).

Inductive timerCallback : Type :=
| FetchTimeout (p : nat).

(** The document and window, as far as the scripts touch them. *)
Record PageT : Type := mkPage {
  videoPrompt : option string;          (* style.display, when the element exists *)
  startBtnDisabled : bool;
  stopBtnDisabled : bool;
  canvas : option value;                (* payload of the image last drawn *)
  console : list consoleLine;
  alerts : list string;
  uncaught : list error                 (* errors that left an event handler *)
}.

(** Network, timers and promises. *)
Record RuntimeT : Type := mkRuntime {
  wire : list string;                   (* frames handed to socket.send *)
  timers : list (nat * timerCallback);  (* delay in ms, callback *)
  connectPromise : promiseT;            (* the promise of connect(), awaited by init *)
  fetchPromises : list promiseT;        (* the promises of ActionSelector.fetchActions *)
  restRequests : list string;           (* urls passed to fetch *)
  restOutstanding : nat;
  customActionsLoadable : bool;         (* whether new CustomActionsManager(...) returns *)
  sink : list sinkCall
}.

(** [RehabEvaluationApp] with the page and runtime it lives in. *)
Record State : Type := mkState {
  wsClient : WebSocketClientT;
  actionSelector : ActionSelectorT;
  isEvaluating : bool;
  customActionsManager : bool;          (* defined or undefined *)
  page : PageT;
  runtime : RuntimeT
}.

(** Field updates: [set_f g r] is [r] with [f] replaced by [g (f r)]. *)

Definition set_socket g (w : WebSocketClientT) : WebSocketClientT :=
  mkWs (g (socket w)) (connected w) (callbacks w).

Definition set_connected g (w : WebSocketClientT) : WebSocketClientT :=
  mkWs (socket w) (g (connected w)) (callbacks w).

Definition set_callbacks g (w : WebSocketClientT) : WebSocketClientT :=
  mkWs (socket w) (connected w) (g (callbacks w)).

Definition set_selectElement g (a : ActionSelectorT) : ActionSelectorT :=
  mkSel (g (selectElement a)) (currentActionElement a) (countElement a) (stageElement a)
    (stageColor a) (angleElement a) (actions a) (selectedAction a) (selectorCallbacks a).

Definition set_currentActionElement g (a : ActionSelectorT) : ActionSelectorT :=
  mkSel (selectElement a) (g (currentActionElement a)) (countElement a) (stageElement a)
    (stageColor a) (angleElement a) (actions a) (selectedAction a) (selectorCallbacks a).

Definition set_countElement g (a : ActionSelectorT) : ActionSelectorT :=
  mkSel (selectElement a) (currentActionElement a) (g (countElement a)) (stageElement a)
    (stageColor a) (angleElement a) (actions a) (selectedAction a) (selectorCallbacks a).

Definition set_stageElement g (a : ActionSelectorT) : ActionSelectorT :=
  mkSel (selectElement a) (currentActionElement a) (countElement a) (g (stageElement a))
    (stageColor a) (angleElement a) (actions a) (selectedAction a) (selectorCallbacks a).

Definition set_stageColor g (a : ActionSelectorT) : ActionSelectorT :=
  mkSel (selectElement a) (currentActionElement a) (countElement a) (stageElement a) (g
    (stageColor a)) (angleElement a) (actions a) (selectedAction a) (selectorCallbacks
    a).

Definition set_angleElement g (a : ActionSelectorT) : ActionSelectorT :=
  mkSel (selectElement a) (currentActionElement a) (countElement a) (stageElement a)
    (stageColor a) (g (angleElement a)) (actions a) (selectedAction a)
    (selectorCallbacks a).

Definition set_actions g (a : ActionSelectorT) : ActionSelectorT :=
  mkSel (selectElement a) (currentActionElement a) (countElement a) (stageElement a)
    (stageColor a) (angleElement a) (g (actions a)) (selectedAction a)
    (selectorCallbacks a).

Definition set_selectedAction g (a : ActionSelectorT) : ActionSelectorT :=
  mkSel (selectElement a) (currentActionElement a) (countElement a) (stageElement a)
    (stageColor a) (angleElement a) (actions a) (g (selectedAction a))
    (selectorCallbacks a).

Definition set_selectorCallbacks g (a : ActionSelectorT) : ActionSelectorT :=
  mkSel (selectElement a) (currentActionElement a) (countElement a) (stageElement a)
    (stageColor a) (angleElement a) (actions a) (selectedAction a) (g (selectorCallbacks
    a)).

Definition set_videoPrompt g (p : PageT) : PageT :=
  mkPage (g (videoPrompt p)) (startBtnDisabled p) (stopBtnDisabled p) (canvas p)
    (console p) (alerts p) (uncaught p).

Definition set_startBtnDisabled g (p : PageT) : PageT :=
  mkPage (videoPrompt p) (g (startBtnDisabled p)) (stopBtnDisabled p) (canvas p)
    (console p) (alerts p) (uncaught p).

Definition set_stopBtnDisabled g (p : PageT) : PageT :=
  mkPage (videoPrompt p) (startBtnDisabled p) (g (stopBtnDisabled p)) (canvas p)
    (console p) (alerts p) (uncaught p).

Definition set_canvas g (p : PageT) : PageT :=
  mkPage (videoPrompt p) (startBtnDisabled p) (stopBtnDisabled p) (g (canvas p))
    (console p) (alerts p) (uncaught p).

Definition set_console g (p : PageT) : PageT :=
  mkPage (videoPrompt p) (startBtnDisabled p) (stopBtnDisabled p) (canvas p) (g (console
    p)) (alerts p) (uncaught p).

Definition set_alerts g (p : PageT) : PageT :=
  mkPage (videoPrompt p) (startBtnDisabled p) (stopBtnDisabled p) (canvas p) (console p)
    (g (alerts p)) (uncaught p).

Definition set_uncaught g (p : PageT) : PageT :=
  mkPage (videoPrompt p) (startBtnDisabled p) (stopBtnDisabled p) (canvas p) (console p)
    (alerts p) (g (uncaught p)).

Definition set_wire g (r : RuntimeT) : RuntimeT :=
  mkRuntime (g (wire r)) (timers r) (connectPromise r) (fetchPromises r) (restRequests
    r) (restOutstanding r) (customActionsLoadable r) (sink r).

Definition set_timers g (r : RuntimeT) : RuntimeT :=
  mkRuntime (wire r) (g (timers r)) (connectPromise r) (fetchPromises r) (restRequests
    r) (restOutstanding r) (customActionsLoadable r) (sink r).

Definition set_connectPromise g (r : RuntimeT) : RuntimeT :=
  mkRuntime (wire r) (timers r) (g (connectPromise r)) (fetchPromises r) (restRequests
    r) (restOutstanding r) (customActionsLoadable r) (sink r).

Definition set_fetchPromises g (r : RuntimeT) : RuntimeT :=
  mkRuntime (wire r) (timers r) (connectPromise r) (g (fetchPromises r)) (restRequests
    r) (restOutstanding r) (customActionsLoadable r) (sink r).

Definition set_restRequests g (r : RuntimeT) : RuntimeT :=
  mkRuntime (wire r) (timers r) (connectPromise r) (fetchPromises r) (g (restRequests
    r)) (restOutstanding r) (customActionsLoadable r) (sink r).

Definition set_restOutstanding g (r : RuntimeT) : RuntimeT :=
  mkRuntime (wire r) (timers r) (connectPromise r) (fetchPromises r) (restRequests r) (g
    (restOutstanding r)) (customActionsLoadable r) (sink r).

Definition set_customActionsLoadable g (r : RuntimeT) : RuntimeT :=
  mkRuntime (wire r) (timers r) (connectPromise r) (fetchPromises r) (restRequests r)
    (restOutstanding r) (g (customActionsLoadable r)) (sink r).

Definition set_sink g (r : RuntimeT) : RuntimeT :=
  mkRuntime (wire r) (timers r) (connectPromise r) (fetchPromises r) (restRequests r)
    (restOutstanding r) (customActionsLoadable r) (g (sink r)).

Definition set_wsClient g (s : State) : State :=
  mkState (g (wsClient s)) (actionSelector s) (isEvaluating s) (customActionsManager s)
    (page s) (runtime s).

Definition set_actionSelector g (s : State) : State :=
  mkState (wsClient s) (g (actionSelector s)) (isEvaluating s) (customActionsManager s)
    (page s) (runtime s).

Definition set_isEvaluating g (s : State) : State :=
  mkState (wsClient s) (actionSelector s) (g (isEvaluating s)) (customActionsManager s)
    (page s) (runtime s).

Definition set_customActionsManager g (s : State) : State :=
  mkState (wsClient s) (actionSelector s) (isEvaluating s) (g (customActionsManager s))
    (page s) (runtime s).

Definition set_page g (s : State) : State :=
  mkState (wsClient s) (actionSelector s) (isEvaluating s) (customActionsManager s) (g
    (page s)) (runtime s).

Definition set_runtime g (s : State) : State :=
  mkState (wsClient s) (actionSelector s) (isEvaluating s) (customActionsManager s)
    (page s) (g (runtime s)).

(** ** The monad of handlers *)

Inductive Outcome (A : Type) : Type :=
| Return (a : A) (s : State)
| Throw (e : error) (s : State).

Arguments Return {A} a s.
Arguments Throw {A} e s.

Definition M (A : Type) : Type := State → Outcome A.

Definition ret {A} (a : A) : M A := λ s, Return a s.

Definition bind {A B} (m : M A) (k : A → M B) : M B :=
  λ s, match m s with
       | Return a s' => k a s'
       | Throw e s' => Throw e s'
       end.

Definition throw {A} (e : error) : M A := λ s, Throw e s.

(** [try { body } catch (e) { handler e }] *)
Definition try_catch {A} (body : M A) (handler : error → M A) : M A :=
  λ s, match body s with
       | Return a s' => Return a s'
       | Throw e s' => handler e s'
       end.

Definition gets {A} (f : State → A) : M A := λ s, Return (f s) s.

Definition modify (f : State → State) : M unit := λ s, Return tt (f s).

Definition state_of {A} (o : Outcome A) : State :=
  match o with
  | Return _ s => s
  | Throw _ s => s
  end.

Definition returns {A} (o : Outcome A) : bool :=
  match o with
  | Return _ _ => true
  | Throw _ _ => false
  end.

Declare Scope js_scope.
Delimit Scope js_scope with js.
Notation "x ← y ; z" := (bind y (λ x, z))
  (at level 20, y at level 100, z at level 200, only parsing) : js_scope.
Notation "y ;; z" := (bind y (λ _, z))
  (at level 100, z at level 200, only parsing, right associativity) : js_scope.
Open Scope js_scope.

Definition when (b : bool) (m : M unit) : M unit :=
  if b then m else ret tt.

Fixpoint forEach {A} (f : A → M unit) (l : list A) : M unit :=
  match l with
  | [] => ret tt
  | x :: rest => f x ;; forEach f rest
  end.

Fixpoint find_first {A} (p : A → M bool) (l : list A) : M (option A) :=
  match l with
  | [] => ret None
  | x :: rest => b ← p x; if b then ret (Some x) else find_first p rest
  end.

(** [arr.forEach(f)] and [arr.find(p)] on a value that may not be an array. *)
Definition array_forEach (arr : value) (f : value → M unit) : M unit :=
  match arr with
  | VArr l => forEach f l
  | _ => throw (TypeError "forEach is not a function")
  end.

Definition array_find (arr : value) (p : value → M bool) : M value :=
  match arr with
  | VArr l => r ← find_first p l; ret (default VUndefined r)
  | _ => throw (TypeError "find is not a function")
  end.

Definition get_prop (v : value) (k : string) : M value :=
  match prop v k with
  | Some x => ret x
  | None => throw (TypeError "Cannot read properties of null or undefined")
  end.

(** Only the first argument of a console call (the message) is kept. *)
Definition console_log (msg : string) : M unit :=
  modify (set_page (set_console (λ l, l ++ [ConsoleLog msg]))).

Definition console_warn (msg : string) : M unit :=
  modify (set_page (set_console (λ l, l ++ [ConsoleWarn msg]))).

Definition console_error (msg : string) : M unit :=
  modify (set_page (set_console (λ l, l ++ [ConsoleError msg]))).

Definition alert (msg : string) : M unit :=
  modify (set_page (set_alerts (λ l, l ++ [msg]))).

(** The body of an async function resumed after an [await]: nobody awaits the
    promise of the async functions of the scripts, so an error that escapes
    the body is an unhandled rejection. *)
Definition resume (k : M unit) : M unit :=
  try_catch k (λ e, modify (set_page (set_uncaught (λ l, l ++ [e])))).

(** The event object passed to the listeners of the socket. *)
Inductive domEvent : Type :=
| OpenEvent
| CloseEvent
| ErrorEvent
| MessageEvent (data : string).

(** ** WebSocketClient *)

Module WebSocketClient.
Section Methods.

(** [JSON.stringify], and the function that calls a registered listener. *)
Variable JSON_stringify : value → string.
Variable call : wsCallback → domEvent → M unit.

(** The continuations of the caller that awaits [connect()]. *)
Variable connect_fulfilled : M unit.
Variable connect_rejected : M unit.

Definition constructor : M unit :=
  modify (set_wsClient (λ _,
    mkWs None false
      (<["onOpen" := []]> (<["onClose" := []]> (<["onMessage" := []]>
         (<["onError" := []]> ∅)))))).

Definition on (eventName : string) (callback : wsCallback) : M unit :=
  modify (set_wsClient (set_callbacks (λ cbs,
    <[eventName := default [] (cbs !! eventName) ++ [callback]]> cbs))).

Definition removeEventListener (eventName : string) (callback : wsCallback) : M unit :=
  modify (set_wsClient (set_callbacks (λ cbs,
    match cbs !! eventName with
    | Some l => <[eventName := filter (λ cb, cb ≠ callback) l]> cbs
    | None => cbs
    end))).

Definition _notifyCallbacks (eventName : string) (data : domEvent) : M unit :=
  cbs ← gets (λ s, callbacks (wsClient s) !! eventName);
  match cbs with
  | Some l =>
      forEach (λ callback,
        try_catch (call callback data)
          (λ error, console_error ("执行" +:+ eventName +:+ "回调时出错:"))) l
  | None => ret tt
  end.

(** [resolve(event)] and [reject(event)] of the promise of [connect()]: a
    settled promise ignores them. *)
Definition resolve : M unit :=
  p ← gets (λ s, connectPromise (runtime s));
  match p with
  | Pending =>
      modify (set_runtime (set_connectPromise (λ _, Fulfilled)));;
      resume connect_fulfilled
  | _ => ret tt
  end.

Definition reject : M unit :=
  p ← gets (λ s, connectPromise (runtime s));
  match p with
  | Pending =>
      modify (set_runtime (set_connectPromise (λ _, Rejected)));;
      resume connect_rejected
  | _ => ret tt
  end.

(** [connect()]: the socket is created in state CONNECTING and the four
    handlers below are installed on it.  [new WebSocket(url)] does not throw
    for the fixed, well-formed url of the application, so the catch block of
    the executor is not reached. *)
Definition connect : M unit :=
  modify (set_runtime (set_connectPromise (λ _, Pending)));;
  modify (set_wsClient (set_socket (λ _, Some CONNECTING))).

Definition onopen (event : domEvent) : M unit :=
  modify (set_wsClient (set_connected (λ _, true)));;
  console_log "WebSocket连接已建立";;
  _notifyCallbacks "onOpen" event;;
  resolve.

Definition onclose (event : domEvent) : M unit :=
  modify (set_wsClient (set_connected (λ _, false)));;
  console_log "WebSocket连接已关闭";;
  _notifyCallbacks "onClose" event.

Definition onmessage (event : domEvent) : M unit :=
  _notifyCallbacks "onMessage" event.

Definition onerror (event : domEvent) : M unit :=
  console_error "WebSocket错误:";;
  _notifyCallbacks "onError" event;;
  reject.

(** [socket.close()] moves an open or connecting socket to CLOSING. *)
Definition disconnect : M unit :=
  sock ← gets (λ s, socket (wsClient s));
  match sock with
  | Some CONNECTING | Some OPEN =>
      modify (set_wsClient (set_socket (λ _, Some CLOSING)))
  | _ => ret tt
  end.

(** [this.connected && this.socket.readyState === WebSocket.OPEN]: the right
    operand is evaluated only when the flag is set, and reads a property of
    [this.socket]. *)
Definition send (message : value) : M bool :=
  flag ← gets (λ s, connected (wsClient s));
  sock ← gets (λ s, socket (wsClient s));
  ready ← (if flag
           then match sock with
                | Some rs => ret (bool_decide (rs = OPEN))
                | None => throw (TypeError "Cannot read properties of null")
                end
           else ret false);
  if ready
  then modify (set_runtime (set_wire (λ l, l ++ [JSON_stringify message])));;
       ret true
  else console_error "WebSocket未连接，无法发送消息";;
       ret false.

Definition sendVideoFrame (frameData selectedActionId : value) : M bool :=
  send (VObj [("type", VStr "video"); ("data", frameData);
              ("selected_action_id", selectedActionId)]).

Definition sendFrame (frameData : value) : M bool :=
  send (VObj [("type", VStr "video"); ("data", frameData)]).

Definition startEvaluation (actionId : value) : M bool :=
  send (VObj [("type", VStr "start_evaluation"); ("action_id", actionId)]).

Definition stopEvaluation : M bool :=
  send (VObj [("type", VStr "stop_evaluation")]).

Definition sendActionSelect (actionId : value) : M bool :=
  send (VObj [("type", VStr "action_select"); ("action_id", actionId)]).

Definition sendActionStop : M bool :=
  send (VObj [("type", VStr "action_stop")]).

Definition requestActions : M bool :=
  send (VObj [("type", VStr "get_actions")]).

Definition sendSettings (settings : value) : M bool :=
  send (VObj [("type", VStr "settings_change"); ("settings", settings)]).

Definition getConnectionStatus : M bool :=
  gets (λ s, connected (wsClient s)).

(** [this.socket && this.socket.readyState === WebSocket.OPEN], as a boolean. *)
Definition isConnected : M bool :=
  gets (λ s, bool_decide (socket (wsClient s) = Some OPEN)).

End Methods.
End WebSocketClient.

(** [JSON.parse(event.data)]: [JSON_parse] is the parser of the platform,
    [None] standing for its SyntaxError; an event without [data] gives
    [JSON.parse(undefined)], a SyntaxError too. *)
Definition parse_data (JSON_parse : string → option value) (event : domEvent) : M value :=
  match event with
  | MessageEvent data =>
      match JSON_parse data with
      | Some v => ret v
      | None => throw SyntaxError
      end
  | _ => throw SyntaxError
  end.

(** What [fetch(url)] followed by [response.json()] can produce: a network
    failure, or a response with its [ok] flag, status text and body ([None]
    when the body is not JSON). *)
Inductive restResponse : Type :=
| NetworkError
| Response (ok : bool) (statusText : string) (body : option value).

(** ** ActionSelector *)

Module ActionSelector.
Section Methods.

Variable JSON_parse : string → option value.
Variable JSON_stringify : value → string.
Variable call : selectorCallback → value → M unit.

(** The continuations of the caller that awaits [fetchActions(wsClient)]. *)
Variable fetch_fulfilled : value → M unit.
Variable fetch_rejected : error → M unit.

Definition constructor : M unit :=
  modify (set_actionSelector (λ a,
    mkSel (selectElement a) (currentActionElement a) (countElement a) (stageElement a)
      (stageColor a) (angleElement a) (VArr []) VNull (<["onActionChange" := []]> ∅))).

Definition appendOption (o : text * text) : M unit :=
  modify (set_actionSelector (set_selectElement (λ e,
    mkSelect (options e ++ [o]) (selectValue e) (changeListeners e)))).

(** [innerHTML = ""] removes the options (the select then has the value "");
    every call adds one more "change" listener to the same element. *)
Definition _populateActionSelect : M unit :=
  modify (set_actionSelector (set_selectElement (λ e,
    mkSelect [] "" (changeListeners e))));;
  appendOption (Lit "", Lit "请选择动作");;
  acts ← gets (λ s, actions (actionSelector s));
  array_forEach acts (λ action,
    id ← get_prop action "id";
    name ← get_prop action "name";
    appendOption (ToString id, ToString name));;
  modify (set_actionSelector (set_selectElement (λ e,
    mkSelect (options e) (selectValue e) (S (changeListeners e))))).

Definition resetStats : M unit :=
  modify (set_actionSelector (set_countElement (λ _, Lit "0")));;
  modify (set_actionSelector (set_stageElement (λ _, Lit "-")));;
  modify (set_actionSelector (set_stageColor (λ _, "#2196F3")));;
  modify (set_actionSelector (set_angleElement (λ _, Lit "0.0°"))).

Definition _notifyCallbacks (eventName : string) (data : value) : M unit :=
  cbs ← gets (λ s, selectorCallbacks (actionSelector s) !! eventName);
  match cbs with
  | Some l =>
      forEach (λ callback,
        try_catch (call callback data)
          (λ error, console_error ("执行" +:+ eventName +:+ "回调时出错:"))) l
  | None => ret tt
  end.

Definition on (eventName : string) (callback : selectorCallback) : M unit :=
  modify (set_actionSelector (set_selectorCallbacks (λ cbs,
    match cbs !! eventName with
    | Some l => <[eventName := l ++ [callback]]> cbs
    | None => cbs
    end))).

Definition removeEventListener (eventName : string) (callback : selectorCallback) : M unit :=
  console_warn "removeEventListener方法在ActionSelector中未实现".

Definition getSelectedAction : M value :=
  gets (λ s, selectedAction (actionSelector s)).

Definition _handleActionChange (actionId : string) : M unit :=
  (if negb (String.eqb actionId "")
   then
     acts ← gets (λ s, actions (actionSelector s));
     found ← array_find acts (λ action,
       id ← get_prop action "id";
       ret (strict_equal id (VStr actionId)));
     modify (set_actionSelector (set_selectedAction (λ _, found)));;
     when (truthy found)
       (name ← get_prop found "name";
        modify (set_actionSelector (set_currentActionElement (λ _, ToString name)));;
        _notifyCallbacks "onActionChange" found)
   else
     modify (set_actionSelector (set_selectedAction (λ _, VNull)));;
     modify (set_actionSelector (set_currentActionElement (λ _, Lit "未选择")));;
     _notifyCallbacks "onActionChange" VNull);;
  resetStats.

(** The first statement records the call, so that the order of the calls
    received by the statistics display can be stated. *)
Definition updateStats (stats : value) : M unit :=
  modify (set_runtime (set_sink (λ l, l ++ [UpdateStats stats])));;
  count ← get_prop stats "count";
  when (negb (strict_equal count VUndefined))
    (modify (set_actionSelector (set_countElement (λ _, ToString count))));;
  stage ← get_prop stats "stage";
  when (negb (strict_equal stage VUndefined))
    (match stage with
     | VStr st =>
         modify (set_actionSelector (set_stageElement (λ _, ToUpperCase st)));;
         modify (set_actionSelector (set_stageColor (λ _,
           if String.eqb st "up" then "#4CAF50"
           else if String.eqb st "down" then "#2196F3"
           else "#FFC107")))
     | _ => throw (TypeError "stats.stage.toUpperCase is not a function")
     end);;
  angle ← get_prop stats "angle";
  when (negb (strict_equal angle VUndefined))
    (match angle with
     | VNum n => modify (set_actionSelector (set_angleElement (λ _, ToFixed1Deg n)))
     | _ => throw (TypeError "stats.angle.toFixed is not a function")
     end).

Definition updateActions (newActions : value) : M unit :=
  console_log "更新动作列表:";;
  modify (set_actionSelector (set_actions (λ _, newActions)));;
  sel ← gets (λ s, selectedAction (actionSelector s));
  currentActionId ← (if truthy sel then get_prop sel "id" else ret VNull);
  _populateActionSelect;;
  when (truthy currentActionId)
    (acts ← gets (λ s, actions (actionSelector s));
     updatedAction ← array_find acts (λ action,
       id ← get_prop action "id";
       ret (strict_equal id currentActionId));
     if truthy updatedAction
     then
       modify (set_actionSelector (set_selectedAction (λ _, updatedAction)));;
       name ← get_prop updatedAction "name";
       modify (set_actionSelector (set_currentActionElement (λ _, ToString name)));;
       _notifyCallbacks "onActionChange" updatedAction
     else
       modify (set_actionSelector (set_selectedAction (λ _, VNull)));;
       modify (set_actionSelector (set_currentActionElement (λ _, Lit "未选择")));;
       _notifyCallbacks "onActionChange" VNull;;
       modify (set_actionSelector (set_selectElement (λ e,
         mkSelect (options e) "" (changeListeners e))))).

(** *** fetchActions(wsClient)

    The promise is an entry of [fetchPromises]; [resolve] and [reject] settle
    it once and resume the awaiting caller. *)

Definition settle (p : nat) (outcome : promiseT) (k : M unit) : M unit :=
  ps ← gets (λ s, fetchPromises (runtime s));
  match ps !! p with
  | Some Pending =>
      modify (set_runtime (set_fetchPromises (λ l, <[p := outcome]> l)));;
      resume k
  | _ => ret tt
  end.

Definition resolve (p : nat) (v : value) : M unit :=
  settle p Fulfilled (fetch_fulfilled v).

Definition reject (p : nat) (e : error) : M unit :=
  settle p Rejected (fetch_rejected e).

Definition setTimeout (callback : timerCallback) (delay : nat) : M unit :=
  modify (set_runtime (set_timers (λ l, l ++ [(delay, callback)]))).

(** The temporary listener [handleMessage] of promise [p]. *)
Definition handleMessage (p : nat) (event : domEvent) : M unit :=
  try_catch
    (message ← parse_data JSON_parse event;
     ty ← get_prop message "type";
     if strict_equal ty (VStr "actions_list")
     then
       acts ← get_prop message "actions";
       modify (set_actionSelector (set_actions (λ _, acts)));;
       _populateActionSelect;;
       WebSocketClient.removeEventListener "message" (FetchHandleMessage p);;
       acts' ← gets (λ s, actions (actionSelector s));
       resolve p acts'
     else ret tt)
    (λ error, console_error "解析动作列表消息出错:").

(** The callback passed to [setTimeout]. *)
Definition timeout (p : nat) : M unit :=
  WebSocketClient.removeEventListener "message" (FetchHandleMessage p);;
  reject p (Error "获取动作列表超时").

(** The executor of the promise; an exception in an executor rejects the
    promise.  The result is the index of the promise. *)
Definition fetchActions : M nat :=
  p ← gets (λ s, length (fetchPromises (runtime s)));
  modify (set_runtime (set_fetchPromises (λ l, l ++ [Pending])));;
  try_catch
    (WebSocketClient.on "onMessage" (FetchHandleMessage p);;
     WebSocketClient.requestActions JSON_stringify;;
     setTimeout (FetchTimeout p) 5000)
    (λ e, reject p e);;
  ret p.

(** *** fetchActionsRest(apiUrl)

    The call issues the request and suspends; [fetchActionsRest_resume] is the
    rest of the body, run when the response is in. *)

Definition fetchActionsRest (apiUrl : string) : M unit :=
  modify (set_runtime (set_restRequests (λ l, l ++ [apiUrl +:+ "/actions"])));;
  modify (set_runtime (set_restOutstanding S)).

Definition fetchActionsRest_resume (r : restResponse) : M value :=
  try_catch
    (match r with
     | NetworkError => throw (TypeError "Failed to fetch")
     | Response true _ body =>
         data ← (match body with
                 | Some v => ret v
                 | None => throw SyntaxError
                 end);
         acts ← get_prop data "actions";
         modify (set_actionSelector (set_actions (λ _, acts)));;
         _populateActionSelect;;
         gets (λ s, actions (actionSelector s))
     | Response false _ _ =>
         console_error "获取动作列表失败:";;
         ret (VArr [])
     end)
    (λ error,
       console_error "获取动作列表出错:";;
       ret (VArr [])).

End Methods.
End ActionSelector.

(** ** RehabEvaluationApp (main.js) *)

Module RehabEvaluationApp.
Section Methods.

Variable JSON_parse : string → option value.
Variable JSON_stringify : value → string.

(** The listener registered by [initActionSelector]. *)
Definition onActionChange (action : value) : M unit :=
  (if truthy action then get_prop action "name" else ret (VStr "无"));;
  console_log "动作选择变化:";;
  c ← WebSocketClient.isConnected;
  when (c && truthy action)
    (id ← get_prop action "id";
     WebSocketClient.sendActionSelect JSON_stringify id;;
     console_log "动作选择已发送到后端:").

Definition callSelector (cb : selectorCallback) (data : value) : M unit :=
  match cb with
  | AppOnActionChange => onActionChange data
  end.

Definition initActionSelector : M unit :=
  ActionSelector.constructor;;
  ActionSelector.on "onActionChange" AppOnActionChange.

Definition sendSettingsToBackend (settings : value) : M unit :=
  c ← WebSocketClient.isConnected;
  if c
  then WebSocketClient.sendSettings JSON_stringify settings;;
       console_log "设置已发送到后端:"
  else console_warn "WebSocket未连接，无法发送设置".

(** [img.src = ...] is taken as drawing the payload on the canvas; the first
    statement records the call (see [ActionSelector.updateStats]). *)
Definition handleProcessedFrame (result : value) : M unit :=
  modify (set_runtime (set_sink (λ l, l ++ [HandleProcessedFrame result])));;
  data ← get_prop result "data";
  when (truthy data)
    (try_catch
       (modify (set_page (set_canvas (λ _, Some data))))
       (λ error, console_error "处理后端推送的图像出错:")).

(** [CustomActionsManager] (both versions in the repository) has no method
    [setActions]: the call is a TypeError whenever the manager is defined. *)
Definition handleWebSocketMessage (event : domEvent) : M unit :=
  try_catch
    (message ← parse_data JSON_parse event;
     console_log "收到WebSocket消息:";;
     ty ← get_prop message "type";
     if strict_equal ty (VStr "processed_frame") then
       ev ← gets isEvaluating;
       when ev (handleProcessedFrame message)
     else if strict_equal ty (VStr "result") then
       ev ← gets isEvaluating;
       when ev
         (console_log "收到评估结果:";;
          count ← get_prop message "count";
          stage ← get_prop message "stage";
          angle ← get_prop message "angle";
          ActionSelector.updateStats
            (VObj [("count", count); ("stage", stage); ("angle", angle)]))
     else if strict_equal ty (VStr "warning") then
       get_prop message "message";;
       console_warn "后端警告:"
     else if strict_equal ty (VStr "error") then
       get_prop message "message";;
       console_error "后端错误:"
     else if strict_equal ty (VStr "actions_list") then
       acts ← get_prop message "actions";
       console_log "收到动作列表:";;
       ActionSelector.updateActions callSelector acts;;
       cam ← gets customActionsManager;
       when cam
         (throw (TypeError "this.customActionsManager.setActions is not a function"))
     else if strict_equal ty (VStr "action_selected") then
       console_log "动作选择成功:"
     else if strict_equal ty (VStr "action_stopped") then
       console_log "动作评估已停止:"
     else if strict_equal ty (VStr "evaluation_started") then
       console_log "评估已开始:"
     else
       console_log "未知消息类型:")
    (λ error,
       console_error "解析WebSocket消息出错:";;
       console_error "原始消息:").

Definition startEvaluation : M unit :=
  selected ← ActionSelector.getSelectedAction;
  if negb (truthy selected) then
    alert "请先选择要评估的动作"
  else
    c ← WebSocketClient.isConnected;
    if negb c then
      alert "WebSocket连接未建立，请检查后端服务是否正常运行"
    else
      try_catch
        (modify (set_isEvaluating (λ _, true));;
         modify (set_page (set_videoPrompt (fmap (λ _, "none"))));;
         modify (set_page (set_startBtnDisabled (λ _, true)));;
         modify (set_page (set_stopBtnDisabled (λ _, false)));;
         console_log "=== 开始评估流程 ===";;
         console_log "选择的动作:";;
         id ← get_prop selected "id";
         WebSocketClient.startEvaluation JSON_stringify id;;
         console_log "发送开始评估请求结果:";;
         get_prop selected "name";;
         console_log "开始评估:")
        (λ error,
           console_error "开始评估失败:";;
           modify (set_isEvaluating (λ _, false));;
           alert "开始评估失败，请重试").

(** [this.visualizer.reset()] clears the canvas. *)
Definition stopEvaluation : M unit :=
  try_catch
    (modify (set_isEvaluating (λ _, false));;
     modify (set_page (set_videoPrompt (fmap (λ _, "block"))));;
     modify (set_page (set_startBtnDisabled (λ _, false)));;
     modify (set_page (set_stopBtnDisabled (λ _, true)));;
     WebSocketClient.stopEvaluation JSON_stringify;;
     modify (set_page (set_canvas (λ _, None)));;
     ActionSelector.resetStats;;
     console_log "停止评估，已重置状态")
    (λ error,
       console_error "停止评估失败:";;
       alert "停止评估失败，请重试").

(** *** fetchActions

    [fetchActions] runs up to the first [await]; [fetchActions_catch] is the
    outer catch block, run when the promise is rejected, up to its own
    [await]; [fetchActions_rest] is the rest of the inner try statement. *)

Definition fetchActions_catch (error : error) : M unit :=
  console_error "获取动作列表失败:";;
  ActionSelector.fetchActionsRest "http://localhost:5000".

Definition fetchActions_rest (r : restResponse) : M unit :=
  try_catch
    (ActionSelector.fetchActionsRest_resume r;;
     ret tt)
    (λ restError,
       console_error "使用REST API获取动作列表也失败:";;
       alert "无法获取动作列表，请检查后端服务是否正常运行").

Definition fetchActions : M unit :=
  ActionSelector.fetchActions JSON_stringify fetchActions_catch;;
  ret tt.

(** The listeners of [initWebSocket], and the temporary listener of the
    selector. *)
Definition callWs (cb : wsCallback) (event : domEvent) : M unit :=
  match cb with
  | AppOnOpen =>
      console_log "WebSocket连接已建立";;
      resume fetchActions
  | AppOnMessage => handleWebSocketMessage event
  | AppOnClose => console_log "WebSocket连接已关闭"
  | AppOnError => console_error "WebSocket错误:"
  | FetchHandleMessage p =>
      ActionSelector.handleMessage JSON_parse (λ _, ret tt) p event
  end.

Definition initWebSocket : M unit :=
  WebSocketClient.constructor;;
  WebSocketClient.on "onOpen" AppOnOpen;;
  WebSocketClient.on "onMessage" AppOnMessage;;
  WebSocketClient.on "onClose" AppOnClose;;
  WebSocketClient.on "onError" AppOnError.

Definition initCustomActions : M unit :=
  ok ← gets (λ s, customActionsLoadable (runtime s));
  if ok
  then modify (set_customActionsManager (λ _, true))
  else throw (TypeError "CustomActionsManager").

Definition initOptionalModules : M unit :=
  try_catch
    (console_log "9.1 初始化自定义动作管理模块...";;
     initCustomActions;;
     console_log "自定义动作管理模块初始化成功";;
     console_log "9.2 初始化视频保存模块...";;
     console_log "视频保存模块初始化成功";;
     console_log "所有可选模块初始化完成！")
    (λ error, console_warn "可选模块初始化失败，但不影响核心功能:").

(** [init()] up to [await this.wsClient.connect()], after the constructor. *)
Definition init : M unit :=
  modify (set_isEvaluating (λ _, false));;
  modify (set_customActionsManager (λ _, false));;
  console_log "开始初始化应用...";;
  console_log "1. 初始化设置模块...";;
  console_log "设置模块初始化成功";;
  console_log "2. 初始化动作选择器...";;
  initActionSelector;;
  console_log "动作选择器初始化成功";;
  console_log "3. 摄像头模块已移除，由后端处理...";;
  console_log "4. 初始化可视化模块...";;
  console_log "可视化模块初始化成功";;
  console_log "5. 初始化WebSocket模块...";;
  initWebSocket;;
  console_log "WebSocket模块初始化成功";;
  console_log "6. 绑定事件监听器...";;
  console_log "事件监听器绑定成功";;
  console_log "7. 初始化视频显示...";;
  console_log "视频显示初始化成功";;
  console_log "8. 连接WebSocket...";;
  WebSocketClient.connect.

(** The rest of [init()] when the connection opened, and when it failed. *)
Definition init_connected : M unit :=
  console_log "WebSocket连接成功";;
  console_log "康复评估应用核心功能初始化完成！";;
  initOptionalModules.

Definition init_failed : M unit :=
  console_error "应用初始化失败:";;
  console_error "错误类型:";;
  console_error "错误堆栈:";;
  console_error "错误详细信息:";;
  alert "应用初始化过程中发生错误，但核心功能可能仍可用：
未知错误

请检查浏览器控制台获取完整错误信息。";;
  initOptionalModules.

(** ** Events

    What the browser can deliver to the page: a call of each user action,
    the events of the socket, the timer of a catalog fetch, the response of
    the REST request, and the notifications of the two forms (a changed list
    of custom actions, changed settings), whose own logic is not modelled.  A
    socket event is delivered only in the ready state that allows it, and
    first moves the socket to its new ready state. *)

Inductive event : Type :=
| SelectExercise (actionId : string)
| Start
| Stop
| SocketOpen
| SocketMessage (data : string)
| SocketError
| SocketClose
| TimerFires (k : nat)
| RestArrives (r : restResponse)
| ActionsChanged (newActions : value)
| SettingsChanged (settings : value).

Definition handler (e : event) : M unit :=
  match e with
  | SelectExercise actionId => ActionSelector._handleActionChange callSelector actionId
  | Start => startEvaluation
  | Stop => stopEvaluation
  | SocketOpen =>
      sock ← gets (λ s, socket (wsClient s));
      match sock with
      | Some CONNECTING =>
          modify (set_wsClient (set_socket (λ _, Some OPEN)));;
          WebSocketClient.onopen callWs init_connected OpenEvent
      | _ => ret tt
      end
  | SocketMessage data =>
      sock ← gets (λ s, socket (wsClient s));
      match sock with
      | Some OPEN => WebSocketClient.onmessage callWs (MessageEvent data)
      | _ => ret tt
      end
  | SocketError =>
      sock ← gets (λ s, socket (wsClient s));
      match sock with
      | Some CONNECTING | Some OPEN | Some CLOSING =>
          WebSocketClient.onerror callWs init_failed ErrorEvent
      | _ => ret tt
      end
  | SocketClose =>
      sock ← gets (λ s, socket (wsClient s));
      match sock with
      | Some CONNECTING | Some OPEN | Some CLOSING =>
          modify (set_wsClient (set_socket (λ _, Some CLOSED)));;
          WebSocketClient.onclose callWs CloseEvent
      | _ => ret tt
      end
  | TimerFires k =>
      ts ← gets (λ s, timers (runtime s));
      match ts !! k with
      | Some (_, FetchTimeout p) =>
          modify (set_runtime (set_timers (delete k)));;
          ActionSelector.timeout fetchActions_catch p
      | None => ret tt
      end
  | RestArrives r =>
      n ← gets (λ s, restOutstanding (runtime s));
      match n with
      | S n' =>
          modify (set_runtime (set_restOutstanding (λ _, n')));;
          resume (fetchActions_rest r)
      | O => ret tt
      end
  | ActionsChanged newActions =>
      (* the listener of initCustomActions, registered when the manager exists *)
      cam ← gets customActionsManager;
      when cam
        (console_log "自定义动作变化:";;
         ActionSelector.updateActions callSelector newActions)
  | SettingsChanged settings =>
      (* the listener of initSettings *)
      console_log "设置已更改:";;
      sendSettingsToBackend settings
  end.

(** An error that leaves a handler is reported by the browser; the page goes on. *)
Definition step (s : State) (e : event) : State :=
  match handler e s with
  | Return _ s' => s'
  | Throw err s' => set_page (set_uncaught (λ l, l ++ [err])) s'
  end.

Definition run (s : State) (es : list event) : State :=
  fold_left step es s.

(** The states of a page whose load event ran [init] and which then received
    any sequence of events. *)
Definition reachable (s : State) : Prop :=
  ∃ (s0 : State) (es : list event), s = run (state_of (init s0)) es.

End Methods.
End RehabEvaluationApp.

(** ** A concrete platform for the examples

    [demo_parse] is a parser defined on the frames the examples use and
    failing on every other text; the frames are written with ['] in place of
    the double quote.  [demo_stringify] writes the type tag of a command
    followed by its action id, when it is a string. *)

Definition squat : value :=
  VObj [("id", VStr "a"); ("name", VStr "Squat"); ("up_angle", VNum 170);
        ("down_angle", VNum 90);
        ("kpts", VArr [VNum 11; VNum 13; VNum 15])].

Definition squat' : value :=
  VObj [("id", VStr "a"); ("name", VStr "Deep squat"); ("up_angle", VNum 160);
        ("down_angle", VNum 80);
        ("kpts", VArr [VNum 11; VNum 13; VNum 15])].

Definition lunge : value :=
  VObj [("id", VStr "b"); ("name", VStr "Lunge"); ("up_angle", VNum 165);
        ("down_angle", VNum 95);
        ("kpts", VArr [VNum 12; VNum 14; VNum 16])].

Definition demo_frames : list (string * value) :=
  [ ("{'type':'actions_list','actions':[squat]}",
     VObj [("type", VStr "actions_list"); ("actions", VArr [squat])]);
    ("{'type':'actions_list','actions':[squat2]}",
     VObj [("type", VStr "actions_list"); ("actions", VArr [squat'])]);
    ("{'type':'actions_list','actions':[lunge]}",
     VObj [("type", VStr "actions_list"); ("actions", VArr [lunge])]);
    ("{'type':'result','count':3,'stage':'up','angle':142.7}",
     VObj [("type", VStr "result"); ("count", VNum 3); ("stage", VStr "up");
           ("angle", VNum (1427 # 10))]);
    ("{'type':'processed_frame','data':'/9j/4AAQ'}",
     VObj [("type", VStr "processed_frame"); ("data", VStr "/9j/4AAQ")]);
    ("{'type':'pong'}", VObj [("type", VStr "pong")]);
    ("{'count':3}", VObj [("count", VNum 3)]);
    ("null", VNull) ].

Definition demo_parse (raw : string) : option value :=
  assoc raw demo_frames.

Definition demo_stringify (v : value) : string :=
  match prop v "type", prop v "action_id" with
  | Some (VStr t), Some (VStr id) => t +:+ ":" +:+ id
  | Some (VStr t), _ => t
  | _, _ => ""
  end.

(** A page before its load event, and the states of a short session on it:
    connected with the catalog received, then with the squat selected, then
    evaluating. *)
Definition blank_page : State :=
  mkState (mkWs None false ∅)
    (mkSel (mkSelect [] "" 0) (Lit "未选择") (Lit "0") (Lit "-") "" (Lit "0.0°")
       VUndefined VUndefined ∅)
    false false
    (mkPage (Some "block") false true None [] [] [])
    (mkRuntime [] [] Pending [] [] 0 true []).

(** A client that was constructed and never connected: no socket yet. *)
Definition fresh_client : State :=
  state_of (WebSocketClient.constructor blank_page).

(** A state with two listeners under onMessage and two under
    onActionChange, and listeners that throw: under onMessage the first one
    throws at once and the second one logs; under onActionChange every listener
    logs and then throws. *)
Definition demo_listeners : State :=
  set_wsClient (set_callbacks (λ _, <["onMessage" := [AppOnOpen; AppOnClose]]> ∅))
    (set_actionSelector (set_selectorCallbacks
       (λ _, <["onActionChange" := [AppOnActionChange; AppOnActionChange]]> ∅))
       blank_page).

Definition demo_call (cb : wsCallback) (event : domEvent) : M unit :=
  match cb with
  | AppOnOpen => throw (TypeError "listener failed")
  | _ => console_log "second listener called"
  end.

Definition demo_selector_call (cb : selectorCallback) (data : value) : M unit :=
  console_log "listener called";; throw (TypeError "listener failed").

Definition demo_run : State → list RehabEvaluationApp.event → State :=
  RehabEvaluationApp.run demo_parse demo_stringify.

Definition demo_step : State → RehabEvaluationApp.event → State :=
  RehabEvaluationApp.step demo_parse demo_stringify.

Definition demo_connected : State :=
  demo_run (state_of (RehabEvaluationApp.init blank_page))
    [RehabEvaluationApp.SocketOpen;
     RehabEvaluationApp.SocketMessage "{'type':'actions_list','actions':[squat]}"].

Definition demo_ready : State :=
  demo_run (state_of (RehabEvaluationApp.init blank_page))
    [RehabEvaluationApp.SocketOpen;
     RehabEvaluationApp.SocketMessage "{'type':'actions_list','actions':[squat]}";
     RehabEvaluationApp.SelectExercise "a"].

Definition demo_evaluating : State :=
  demo_run (state_of (RehabEvaluationApp.init blank_page))
    [RehabEvaluationApp.SocketOpen;
     RehabEvaluationApp.SocketMessage "{'type':'actions_list','actions':[squat]}";
     RehabEvaluationApp.SelectExercise "a";
     RehabEvaluationApp.Start].

(** * The session, as the specification sees it *)

(** [connectionState == Open], read as [WebSocketClient.isConnected] does. *)
Definition connection_open (s : State) : bool :=
  bool_decide (socket (wsClient s) = Some OPEN).

(** [selectedExercise != none]. *)
Definition exercise_selected (s : State) : bool :=
  truthy (selectedAction (actionSelector s)).

Definition session_invariant (s : State) : Prop :=
  isEvaluating s = true →
  exercise_selected s = true ∧ connection_open s = true.

(** The statistics on display: count, stage and angle. *)
Definition stats (s : State) : text * text * text :=
  (countElement (actionSelector s), stageElement (actionSelector s),
   angleElement (actionSelector s)).

Definition reset_stats : text * text * text :=
  (Lit "0", Lit "-", Lit "0.0°").

(** [find_by_id id l]: the element of the catalog [l] whose [id] is [id], as
    [Array.prototype.find] computes it with the callback
    [action => action.id === id]; the outer [None] is the TypeError raised at
    a null entry met before a match. *)
Fixpoint find_by_id (id : value) (l : list value) : option (option value) :=
  match l with
  | [] => Some None
  | a :: rest =>
      match prop a "id" with
      | None => None
      | Some v => if strict_equal v id then Some (Some a) else find_by_id id rest
      end
  end.

(** [actionId] is a non-empty id that the cached catalog resolves. *)
Definition resolves (s : State) (actionId : string) : bool :=
  match actions (actionSelector s) with
  | VArr l =>
      match find_by_id (VStr actionId) l with
      | Some (Some _) => negb (String.eqb actionId "")
      | _ => false
      end
  | _ => false
  end.

(** The id under which [updateActions] looks the selection up. *)
Definition currentActionId (s : State) : value :=
  if exercise_selected s
  then default VUndefined (prop (selectedAction (actionSelector s)) "id")
  else VNull.


(** What a dispatcher makes of the outcome of one listener: a returned
    listener leaves its state, a thrown error is logged and dropped. *)
Definition absorbed (eventName : string) (o : Outcome unit) : State :=
  match o with
  | Return _ s => s
  | Throw _ s =>
      set_page (set_console
        (λ l, l ++ [ConsoleError ("执行" +:+ eventName +:+ "回调时出错:")])) s
  end.

(** The [type] values that [handleWebSocketMessage] has a case for. *)
Definition known_types : list string :=
  ["processed_frame"; "result"; "warning"; "error"; "actions_list";
   "action_selected"; "action_stopped"; "evaluation_started"].

(** A frame is unknown when it is not JSON, or is JSON without a [type]
    field that one of the cases matches. *)
Definition unknown_message (JSON_parse : string → option value) (raw : string) : bool :=
  match JSON_parse raw with
  | None => true
  | Some m =>
      match prop m "type" with
      | None => true
      | Some ty => negb (existsb (λ k, strict_equal ty (VStr k)) known_types)
      end
  end.

(** What the sink has to receive for a frame, following the specification: a
    [result] frame is one call of the statistics display with its count, stage
    and angle, a [processed_frame] frame is one call of the frame renderer,
    and any other frame is nothing. *)
Definition forwarded (JSON_parse : string → option value) (raw : string) : list sinkCall :=
  match JSON_parse raw with
  | None => []
  | Some m =>
      match prop m "type" with
      | None => []
      | Some ty =>
          if strict_equal ty (VStr "processed_frame") then [HandleProcessedFrame m]
          else if strict_equal ty (VStr "result") then
            [UpdateStats (VObj [("count", default VUndefined (prop m "count"));
                                ("stage", default VUndefined (prop m "stage"));
                                ("angle", default VUndefined (prop m "angle"))])]
          else []
      end
  end.

(** The calls of the user: select an exercise, start, stop. *)
Definition is_session_call (e : RehabEvaluationApp.event) : bool :=
  match e with
  | RehabEvaluationApp.SelectExercise _
  | RehabEvaluationApp.Start
  | RehabEvaluationApp.Stop => true
  | _ => false
  end.

Definition resolved_call (s : State) (e : RehabEvaluationApp.event) : bool :=
  match e with
  | RehabEvaluationApp.SelectExercise actionId => resolves s actionId
  | _ => true
  end.

(** [_handleActionChange actionId] stores a falsy selection: null for the
    empty option, undefined for an id that the cached catalog, searched to its
    end, does not contain.  (When the catalog is not an array, or has a null
    entry before an entry with the id, the call throws before it stores
    anything, and the selection stays.) *)
Definition clears_selection (s : State) (actionId : string) : bool :=
  if String.eqb actionId "" then true
  else
    match actions (actionSelector s) with
    | VArr l =>
        match find_by_id (VStr actionId) l with
        | Some None => true
        | _ => false
        end
    | _ => false
    end.

(** A call that keeps the selection of a running evaluation: every call but a
    [selectExercise] that is made while evaluating and clears the selection. *)
Definition keeps_selection (s : State) (e : RehabEvaluationApp.event) : bool :=
  match e with
  | RehabEvaluationApp.SelectExercise actionId =>
      negb (isEvaluating s && clears_selection s actionId)
  | _ => true
  end.

(** Every call of the sequence keeps the selection, each one looked at in the
    state in which it is made. *)
Fixpoint selection_kept (JSON_parse : string → option value)
    (JSON_stringify : value → string) (s : State)
    (calls : list RehabEvaluationApp.event) : bool :=
  match calls with
  | [] => true
  | e :: rest =>
      keeps_selection s e &&
      selection_kept JSON_parse JSON_stringify
        (RehabEvaluationApp.step JSON_parse JSON_stringify s e) rest
  end.

(** The message shown by [startEvaluation] when it refuses to start. *)
Definition precondition_alert (s : State) : string :=
  if exercise_selected s
  then "WebSocket连接未建立，请检查后端服务是否正常运行"
  else "请先选择要评估的动作".

(** The command that announces a selection to the backend. *)
Definition action_select (a : value) : value :=
  VObj [("type", VStr "action_select");
        ("action_id", default VUndefined (prop a "id"))].



(** What a notification of the selector leaves alone. *)
Definition display (s : State) :=
  (currentActionElement (actionSelector s), actions (actionSelector s),
   selectElement (actionSelector s), stats s, stageColor (actionSelector s),
   alerts (page s), uncaught (page s), wsClient s).

(** The option element that [_populateActionSelect] makes for a catalog
    entry: its value and its text. *)
Definition option_of (action : value) : text * text :=
  (ToString (default VUndefined (prop action "id")),
   ToString (default VUndefined (prop action "name"))).

(** The options of the select element after a rendering of the catalog [l]. *)
Definition rendered (l : list value) : list (text * text) :=
  (Lit "", Lit "请选择动作") :: map option_of l.

(** The type tags of the commands that the page sends to the backend, and the
    test that a command carries one of them. *)
Definition page_commands : list string :=
  ["get_actions"; "action_select"; "start_evaluation"; "stop_evaluation";
   "settings_change"].

Definition is_page_command (message : value) : bool :=
  match prop message "type" with
  | Some (VStr ty) => existsb (String.eqb ty) page_commands
  | _ => false
  end.

(** The frames sent since the wire was [w0] are commands of the page. *)
Definition sent_commands (JSON_stringify : value → string) (w0 : list string)
    (s : State) : Prop :=
  ∃ messages,
    wire (runtime s) = w0 ++ map JSON_stringify messages ∧
    forallb is_page_command messages = true.

(** The listeners registered under [name] are [ls] followed by later ones. *)
Definition still_registered (name : string) (ls : list wsCallback) (s : State) : Prop :=
  ∃ more, callbacks (wsClient s) !! name = Some (ls ++ more).



(** Two more states of the short session, and a parser that also knows a
    catalog reply without its list: the page after [init], and after the
    socket has opened. *)
Definition demo_loaded : State :=
  state_of (RehabEvaluationApp.init blank_page).

Definition demo_opened : State :=
  demo_run (state_of (RehabEvaluationApp.init blank_page))
    [RehabEvaluationApp.SocketOpen].

Definition edge_parse (raw : string) : option value :=
  if String.eqb raw "{'type':'actions_list'}"
  then Some (VObj [("type", VStr "actions_list")])
  else demo_parse raw.

(** The registries of listeners are objects used as maps, and are modelled
    as maps of their own properties: a name that every object inherits from
    its prototype is not a key of the model, though [callbacks[name]] finds
    a value for it. *)
Definition inherited_names : list string :=
  ["constructor"; "toString"; "toLocaleString"; "valueOf"; "hasOwnProperty";
   "isPrototypeOf"; "propertyIsEnumerable"; "__proto__"; "__defineGetter__";
   "__defineSetter__"; "__lookupGetter__"; "__lookupSetter__"].

Definition plain_name (name : string) : bool :=
  negb (existsb (String.eqb name) inherited_names).

(** ** Invariants of the running page *)

(** The listeners are those registered by [init], plus the temporary
    listeners of the catalog fetches, which are never removed: they are
    removed under the name "message", which has no entry. *)
Definition wired (s : State) : Prop :=
  callbacks (wsClient s) !! "onOpen" = Some [AppOnOpen] ∧
  callbacks (wsClient s) !! "onClose" = Some [AppOnClose] ∧
  callbacks (wsClient s) !! "onError" = Some [AppOnError] ∧
  (∃ ps, callbacks (wsClient s) !! "onMessage"
         = Some (AppOnMessage :: map FetchHandleMessage ps)) ∧
  callbacks (wsClient s) !! "message" = None ∧
  selectorCallbacks (actionSelector s) !! "onActionChange" = Some [AppOnActionChange].

(** The [connected] flag follows the ready state of the socket. *)
Definition transport_ok (s : State) : Prop :=
  match socket (wsClient s) with
  | Some OPEN => connected (wsClient s) = true
  | Some CLOSING => True
  | _ => connected (wsClient s) = false
  end.

(** While [init] still awaits [connect()], the socket has not opened and no
    evaluation has started. *)
Definition promise_ok (s : State) : Prop :=
  connectPromise (runtime s) = Pending →
  socket (wsClient s) ≠ Some OPEN ∧ isEvaluating s = false.

Definition app_inv (s : State) : Prop :=
  wired s ∧ transport_ok s ∧ promise_ok s.


(** * Reasoning about handlers *)

(** [wp m Q E s]: run from [s], [m] returns a value and state in [Q] or
    throws an error and state in [E]. *)
Definition wp {A} (m : M A) (Q : A → State → Prop) (E : error → State → Prop)
    (s : State) : Prop :=
  match m s with
  | Return a s' => Q a s'
  | Throw e s' => E e s'
  end.

(** [keeps I m]: whether it returns or throws, [m] preserves [I]. *)
Definition keeps {A} (I : State → Prop) (m : M A) : Prop :=
  ∀ s, I s → I (state_of (m s)).

(** [unchanged f m]: [m] leaves the component [f] of the state as it was. *)
Definition unchanged {A X} (f : State → X) (m : M A) : Prop :=
  ∀ x, keeps (λ s, f s = x) m.

(** [total m]: [m] never throws. *)
Definition total {A} (m : M A) : Prop :=
  ∀ s, returns (m s) = true.

Section MonadLaws.
Context {A B : Type}.

Lemma wp_ret (a : A) Q E s : Q a s → wp (ret a) Q E s.
Proof. intros H; exact H. Qed.

Lemma wp_throw (e : error) (Q : A → State → Prop) E s : E e s → wp (throw e) Q E s.
Proof. intros H; exact H. Qed.

Lemma wp_gets (f : State → A) Q E s : Q (f s) s → wp (gets f) Q E s.
Proof. intros H; exact H. Qed.

Lemma wp_modify (f : State → State) Q E s : Q tt (f s) → wp (modify f) Q E s.
Proof. intros H; exact H. Qed.

Lemma wp_bind (m : M A) (k : A → M B) Q E s :
  wp m (λ a s', wp (k a) Q E s') E s → wp (bind m k) Q E s.
Proof. unfold wp, bind. destruct (m s); auto. Qed.

Lemma wp_try_catch (body : M A) (handler : error → M A) Q E s :
  wp body Q (λ e s', wp (handler e) Q E s') s → wp (try_catch body handler) Q E s.
Proof. unfold wp, try_catch. destruct (body s); auto. Qed.

Lemma wp_mono (m : M A) (Q Q' : A → State → Prop) (E E' : error → State → Prop) s :
  wp m Q E s → (∀ a s', Q a s' → Q' a s') → (∀ e s', E e s' → E' e s') →
  wp m Q' E' s.
Proof. unfold wp. destruct (m s); auto. Qed.

Lemma wp_keeps (m : M A) I (Q : A → State → Prop) E s :
  keeps I m → I s → (∀ a s', I s' → Q a s') → (∀ e s', I s' → E e s') →
  wp m Q E s.
Proof.
  intros Hk HI HQ HE. specialize (Hk s HI). unfold wp.
  destruct (m s); simpl in Hk; auto.
Qed.

Lemma wp_state_of (m : M A) (R : State → Prop) s :
  wp m (λ _, R) (λ _, R) s ↔ R (state_of (m s)).
Proof. unfold wp. destruct (m s); reflexivity. Qed.

Lemma keeps_ret I (a : A) : keeps I (ret a).
Proof. intros s H; exact H. Qed.

Lemma keeps_throw I (e : error) : keeps I (throw (A := A) e).
Proof. intros s H; exact H. Qed.

Lemma keeps_gets I (f : State → A) : keeps I (gets f).
Proof. intros s H; exact H. Qed.

Lemma keeps_modify (I : State → Prop) (f : State → State) :
  (∀ s, I s → I (f s)) → keeps I (modify f).
Proof. intros H s Hs. apply H, Hs. Qed.

Lemma keeps_bind I (m : M A) (k : A → M B) :
  keeps I m → (∀ a, keeps I (k a)) → keeps I (bind m k).
Proof.
  intros Hm Hk s Hs. specialize (Hm s Hs). unfold bind.
  destruct (m s) as [a s'|e s']; simpl in *; [exact (Hk a s' Hm) | exact Hm].
Qed.

Lemma keeps_try_catch I (body : M A) (handler : error → M A) :
  keeps I body → (∀ e, keeps I (handler e)) → keeps I (try_catch body handler).
Proof.
  intros Hm Hk s Hs. specialize (Hm s Hs). unfold try_catch.
  destruct (body s) as [a s'|e s']; simpl in *; [exact Hm | exact (Hk e s' Hm)].
Qed.

Lemma total_try_catch (body : M A) (handler : error → M A) :
  (∀ e, total (handler e)) → total (try_catch body handler).
Proof.
  intros H s. unfold try_catch. destruct (body s); [reflexivity | apply H].
Qed.

Lemma total_bind (m : M A) (k : A → M B) :
  total m → (∀ a, total (k a)) → total (bind m k).
Proof.
  intros Hm Hk s. specialize (Hm s). unfold bind.
  destruct (m s); [apply Hk | discriminate].
Qed.

End MonadLaws.

Lemma keeps_forEach {A} I (f : A → M unit) (l : list A) :
  (∀ x, keeps I (f x)) → keeps I (forEach f l).
Proof.
  intros Hf. induction l as [|x l IH]; simpl.
  - apply keeps_ret.
  - apply keeps_bind; [apply Hf | intros _; exact IH].
Qed.

Lemma keeps_find_first {A} I (p : A → M bool) (l : list A) :
  (∀ x, keeps I (p x)) → keeps I (find_first p l).
Proof.
  intros Hp. induction l as [|x l IH]; simpl.
  - apply keeps_ret.
  - apply keeps_bind; [apply Hp | intros [|]; [apply keeps_ret | exact IH]].
Qed.

Lemma total_forEach {A} (f : A → M unit) (l : list A) :
  (∀ x, total (f x)) → total (forEach f l).
Proof.
  intros Hf. induction l as [|x l IH]; simpl.
  - intros s; reflexivity.
  - apply total_bind; [apply Hf | intros _; exact IH].
Qed.

Lemma total_modify (f : State → State) : total (modify f).
Proof. intros s; reflexivity. Qed.

Lemma total_ret {A} (a : A) : total (ret a).
Proof. intros s; reflexivity. Qed.

Lemma total_gets {A} (f : State → A) : total (gets f).
Proof. intros s; reflexivity. Qed.

Lemma wp_keeps_total {A} (m : M A) I (Q : A → State → Prop) E s :
  keeps I m → total m → I s → (∀ a s', I s' → Q a s') → wp m Q E s.
Proof.
  intros Hk Ht HI HQ. specialize (Hk s HI). specialize (Ht s). unfold wp.
  destruct (m s); simpl in *; [auto | discriminate].
Qed.

(** ** The dispatchers *)

Lemma ws_notify_total call eventName data :
  total (WebSocketClient._notifyCallbacks call eventName data).
Proof.
  unfold WebSocketClient._notifyCallbacks.
  apply total_bind; [apply total_gets |].
  intros [l|]; [| apply total_ret].
  apply total_forEach. intros cb. apply total_try_catch. intros e.
  apply total_modify.
Qed.


Lemma ws_notify_keeps I call eventName data :
  (∀ cb, keeps I (call cb data)) → (∀ msg, keeps I (console_error msg)) →
  keeps I (WebSocketClient._notifyCallbacks call eventName data).
Proof.
  intros Hc He. unfold WebSocketClient._notifyCallbacks.
  apply keeps_bind; [apply keeps_gets |].
  intros [l|]; [| apply keeps_ret].
  apply keeps_forEach. intros cb. apply keeps_try_catch; [apply Hc |].
  intros e. apply He.
Qed.


(** ** Automation *)

Ltac head_of t :=
  lazymatch t with
  | ?f _ => head_of f
  | _ => t
  end.

(** [keeps_with tac] decomposes a goal [keeps I m] along the structure of
    [m], unfolding the methods it meets; [tac] proves that a state update
    preserves [I]. *)
Ltac keeps_step tac :=
  lazymatch goal with
  | |- keeps _ (ret _) => apply keeps_ret
  | |- keeps _ (throw _) => apply keeps_throw
  | |- keeps _ (gets _) => apply keeps_gets
  | |- keeps _ (modify _) => apply keeps_modify; solve [tac]
  | |- keeps _ (bind _ _) => apply keeps_bind; [| intros ?]
  | |- keeps _ (try_catch _ _) => apply keeps_try_catch; [| intros ?]
  | |- keeps _ (forEach _ _) => apply keeps_forEach; intros ?
  | |- keeps _ (find_first _ _) => apply keeps_find_first; intros ?
  | |- keeps _ (match ?x with _ => _ end) => destruct x
  | |- keeps _ ?m => let h := head_of m in unfold h
  end.

Ltac keeps_with tac := repeat (keeps_step tac).

Ltac frame :=
  unfold unchanged; intros ?;
  keeps_with ltac:(let H := fresh in intros ? H; exact H).

(** One step of symbolic execution of a goal [wp m Q E s]. *)
Ltac wp_step :=
  lazymatch goal with
  | |- wp (ret _) _ _ _ => simple apply wp_ret
  | |- wp (throw _) _ _ _ => simple apply wp_throw
  | |- wp (gets _) _ _ _ => simple apply wp_gets; cbv beta
  | |- wp (modify _) _ _ _ => simple apply wp_modify; cbv beta
  | |- wp (bind _ _) _ _ _ => simple apply wp_bind
  | |- wp (try_catch _ _) _ _ _ => simple apply wp_try_catch
  | |- wp (forEach _ _) _ _ _ => fail
  | |- wp (find_first _ _) _ _ _ => fail
  | |- wp (WebSocketClient._notifyCallbacks _ _ _) _ _ _ => fail
  | |- wp (ActionSelector._notifyCallbacks _ _ _) _ _ _ => fail
  | |- wp (ActionSelector.updateActions _ _) _ _ _ => fail
  | |- wp (ActionSelector.updateStats _) _ _ _ => fail
  | |- wp (ActionSelector._populateActionSelect) _ _ _ => fail
  | |- wp (RehabEvaluationApp.handleProcessedFrame _) _ _ _ => fail
  | |- wp (WebSocketClient.send _ _) _ _ _ => fail
  | |- wp (match ?x with _ => _ end) _ _ _ => destruct x eqn:?
  | |- wp ?m _ _ _ => let h := head_of m in unfold h
  end.

(** * Properties *)

Section Properties.

Variable JSON_parse : string → option value.
Variable JSON_stringify : value → string.

Local Abbreviation handler := (RehabEvaluationApp.handler JSON_parse JSON_stringify).
Local Abbreviation step := (RehabEvaluationApp.step JSON_parse JSON_stringify).
Local Abbreviation run := (RehabEvaluationApp.run JSON_parse JSON_stringify).
Local Abbreviation reachable := (RehabEvaluationApp.reachable JSON_parse JSON_stringify).
Local Abbreviation callWs := (RehabEvaluationApp.callWs JSON_parse JSON_stringify).
Local Abbreviation callSelector := (RehabEvaluationApp.callSelector JSON_stringify).
Local Abbreviation handleWebSocketMessage :=
  (RehabEvaluationApp.handleWebSocketMessage JSON_parse JSON_stringify).
Local Abbreviation startEvaluation := (RehabEvaluationApp.startEvaluation JSON_stringify).
Local Abbreviation stopEvaluation := (RehabEvaluationApp.stopEvaluation JSON_stringify).
Local Abbreviation send := (WebSocketClient.send JSON_stringify).

(** ** The invariants hold in every reachable state *)

Lemma wired_on_fetch p s :
  wired s →
  wired (set_wsClient (set_callbacks (λ cbs,
    <["onMessage" := default [] (cbs !! "onMessage") ++ [FetchHandleMessage p]]> cbs)) s).
Proof.
  intros (Ho & Hc & He & [ps Hm] & Hn & Hs). unfold wired; simpl.
  rewrite Hm. simpl.
  repeat split; rewrite ?lookup_insert_eq, ?lookup_insert_ne by discriminate;
    try assumption.
  exists (ps ++ [p]). by rewrite map_app.
Qed.

Lemma wired_remove cb s :
  wired s →
  wired (set_wsClient (set_callbacks (λ cbs,
    match cbs !! "message" with
    | Some l => <["message" := filter (λ c, c ≠ cb) l]> cbs
    | None => cbs
    end)) s).
Proof.
  intros Hw. pose proof Hw as (Ho & Hc & He & Hm & Hn & Hs).
  unfold wired; simpl. rewrite Hn. exact Hw.
Qed.

Lemma promise_ok_stopped s : promise_ok s → promise_ok (set_isEvaluating (λ _, false) s).
Proof. intros H Hp. destruct (H Hp). split; [assumption | reflexivity]. Qed.

Lemma promise_ok_settled p s :
  p ≠ Pending → promise_ok (set_runtime (set_connectPromise (λ _, p)) s).
Proof. intros Hne Hp. simpl in Hp. contradiction. Qed.

(** Proves that an update preserves a conjunction of invariants. *)
Ltac inv_update :=
  let H := fresh "H" in
  intros ? H;
  first
    [ exact H
    | repeat match goal with
        | |- _ ∧ _ => split
        | |- app_inv _ => unfold app_inv
        | H : app_inv _ |- _ => unfold app_inv in H
        | H : _ ∧ _ |- _ => destruct H
        end;
      first
        [ assumption
        | apply wired_on_fetch; assumption
        | apply wired_remove; assumption
        | apply promise_ok_stopped; assumption
        | apply promise_ok_settled; discriminate ] ].

Lemma init_inv s0 : app_inv (state_of (RehabEvaluationApp.init s0)).
Proof.
  unfold app_inv, wired, transport_ok, promise_ok. simpl.
  repeat split; try reflexivity; try discriminate.
  by exists [].
Qed.

Lemma callWs_inv cb ev : keeps app_inv (callWs cb ev).
Proof. keeps_with inv_update. Qed.

Lemma callWs_wired_transport cb ev :
  keeps (λ s, wired s ∧ transport_ok s) (callWs cb ev).
Proof. keeps_with inv_update. Qed.

Lemma step_wp (R : State → Prop) e s :
  wp (handler e) (λ _, R)
     (λ err s', R (set_page (set_uncaught (λ l, l ++ [err])) s')) s →
  R (step s e).
Proof.
  unfold wp, RehabEvaluationApp.step. destruct (handler e s); auto.
Qed.

Lemma step_keeps (I : State → Prop) e s :
  keeps I (handler e) →
  (∀ err s', I s' → I (set_page (set_uncaught (λ l, l ++ [err])) s')) →
  I s → I (step s e).
Proof.
  intros Hk Hu Hs. apply step_wp. apply (wp_keeps _ I); auto.
Qed.

Lemma startEvaluation_rejected s :
  exercise_selected s = false ∨ connection_open s = false →
  startEvaluation s
  = Return tt (set_page (set_alerts (λ l, l ++ [precondition_alert s])) s).
Proof.
  unfold RehabEvaluationApp.startEvaluation, precondition_alert, exercise_selected,
    connection_open, ActionSelector.getSelectedAction, WebSocketClient.isConnected,
    bind, gets, alert, modify.
  intros [H | H].
  - rewrite H. reflexivity.
  - destruct (truthy (selectedAction (actionSelector s))); simpl; [| reflexivity].
    rewrite H. reflexivity.
Qed.

Lemma handler_inv e :
  e ≠ RehabEvaluationApp.Start → e ≠ RehabEvaluationApp.SocketOpen →
  e ≠ RehabEvaluationApp.SocketClose →
  keeps app_inv (handler e).
Proof.
  intros H1 H2 H3. destruct e; try congruence; keeps_with inv_update.
Qed.

Lemma start_inv s : app_inv s → app_inv (state_of (startEvaluation s)).
Proof.
  intros (Hw & Ht & Hp).
  assert (K : keeps (λ s, wired s ∧ transport_ok s
                          ∧ connectPromise (runtime s) ≠ Pending) startEvaluation)
    by keeps_with inv_update.
  destruct (connectPromise (runtime s)) eqn:Hc.
  - destruct (Hp Hc) as [Hs He]. rewrite startEvaluation_rejected.
    + exact (conj Hw (conj Ht Hp)).
    + right. apply bool_decide_eq_false. exact Hs.
  - destruct (K s) as (? & ? & Hn);
      [ split; [exact Hw | split; [exact Ht | rewrite Hc; discriminate]] |].
    split; [assumption | split; [assumption | intros Hpend; contradiction]].
  - destruct (K s) as (? & ? & Hn);
      [ split; [exact Hw | split; [exact Ht | rewrite Hc; discriminate]] |].
    split; [assumption | split; [assumption | intros Hpend; contradiction]].
Qed.

Lemma open_inv s : app_inv s → app_inv (step s RehabEvaluationApp.SocketOpen).
Proof.
  intros (Hw & Ht & Hp). apply step_wp.
  repeat wp_step; try exact (conj Hw (conj Ht Hp)).
  eapply (wp_keeps_total _ (λ s, wired s ∧ transport_ok s)).
  - apply ws_notify_keeps; [intros cb; apply callWs_wired_transport |].
    intros msg. keeps_with inv_update.
  - apply ws_notify_total.
  - split; [exact Hw | reflexivity].
  - intros _ s' [Hw' Ht']. cbv beta.
    repeat wp_step;
      (split; [exact Hw' | split; [exact Ht' |]]);
      intros Hpend; simpl in Hpend; congruence.
Qed.

Lemma close_inv s : app_inv s → app_inv (step s RehabEvaluationApp.SocketClose).
Proof.
  intros (Hw & Ht & Hp). apply step_wp.
  repeat wp_step; try exact (conj Hw (conj Ht Hp)).
  all: eapply (wp_keeps_total _ app_inv);
    [ apply ws_notify_keeps;
        [intros cb; apply callWs_inv | intros msg; keeps_with inv_update]
    | apply ws_notify_total
    | split; [exact Hw | split; [reflexivity |]]
    | intros _ s' H; exact H ].
  all: intros Hpend; destruct (Hp Hpend); split; [discriminate | assumption].
Qed.

Lemma step_inv s e : app_inv s → app_inv (step s e).
Proof.
  intros H. destruct e;
    try (apply step_keeps;
         [apply handler_inv; discriminate | intros ? ? K; exact K | exact H]).
  - apply step_keeps; [| intros ? ? K; exact K | exact H].
    intros s' Hs'. apply start_inv, Hs'.
  - apply open_inv, H.
  - apply close_inv, H.
Qed.

Lemma run_inv es s : app_inv s → app_inv (run s es).
Proof.
  revert s. induction es as [|e es IH]; intros s H; simpl; [exact H |].
  apply IH, step_inv, H.
Qed.

Lemma reachable_inv s : reachable s → app_inv s.
Proof. intros (s0 & es & ->). apply run_inv, init_inv. Qed.

Lemma reachable_step s e : reachable s → reachable (step s e).
Proof.
  intros (s0 & es & ->). exists s0, (es ++ [e]).
  unfold RehabEvaluationApp.run. by rewrite fold_left_app.
Qed.

(** ** Sending (C8) *)

Lemma send_spec s message :
  transport_ok s →
  send message s =
  if connection_open s
  then Return true (set_runtime (set_wire (λ l, l ++ [JSON_stringify message])) s)
  else Return false
         (set_page (set_console
            (λ l, l ++ [ConsoleError "WebSocket未连接，无法发送消息"])) s).
Proof.
  unfold transport_ok, connection_open, WebSocketClient.send, bind, gets, ret, throw,
    modify, console_error.
  destruct (socket (wsClient s)) as [[]|], (connected (wsClient s));
    intros H; try discriminate; reflexivity.
Qed.

Lemma wp_send message Q E s :
  transport_ok s →
  (if connection_open s
   then Q true (set_runtime (set_wire (λ l, l ++ [JSON_stringify message])) s)
   else Q false (set_page (set_console
          (λ l, l ++ [ConsoleError "WebSocket未连接，无法发送消息"])) s)) →
  wp (send message) Q E s.
Proof.
  intros Ht H. unfold wp. rewrite send_spec by exact Ht.
  destruct (connection_open s); exact H.
Qed.

(** C8. In every state of the transport (no socket yet, as in a client
    that never connected, or a socket that is connecting, open, closing or
    closed, the connected flag following it) and for every command, [send]
    returns without throwing; it returns [true] and hands the serialized
    command to the socket exactly when the socket is open, and otherwise
    returns [false] and transmits nothing (it only logs an error). *)
Theorem send_accepted_iff_open s message :
  transport_ok s →
  send message s =
  if connection_open s
  then Return true (set_runtime (set_wire (λ l, l ++ [JSON_stringify message])) s)
  else Return false
         (set_page (set_console
            (λ l, l ++ [ConsoleError "WebSocket未连接，无法发送消息"])) s).
Proof. apply send_spec. Qed.

(** ** Refusing to start (C3) *)

(** C3. When no exercise is selected or the connection is not open,
    [startEvaluation] returns at once: the only effect is one alert with the
    refusal, so nothing is sent, the evaluating flag and the selection are as
    before. *)
Theorem start_refused_without_preconditions s :
  exercise_selected s = false ∨ connection_open s = false →
  ∃ s',
    startEvaluation s = Return tt s' ∧
    s' = set_page (set_alerts (λ l, l ++ [precondition_alert s])) s ∧
    wire (runtime s') = wire (runtime s) ∧
    isEvaluating s' = isEvaluating s ∧
    selectedAction (actionSelector s') = selectedAction (actionSelector s) ∧
    wsClient s' = wsClient s.
Proof.
  intros H. eexists. split; [apply startEvaluation_rejected, H |].
  repeat split.
Qed.

(** ** Stopping (C4) *)

Lemma stopEvaluation_spec s :
  transport_ok s →
  ∃ s',
    stopEvaluation s = Return tt s' ∧
    isEvaluating s' = false ∧
    selectedAction (actionSelector s') = selectedAction (actionSelector s) ∧
    stats s' = reset_stats ∧
    wire (runtime s') =
      wire (runtime s) ++
      (if connection_open s
       then [JSON_stringify (VObj [("type", VStr "stop_evaluation")])]
       else []) ∧
    alerts (page s') = alerts (page s).
Proof.
  intros Ht.
  unfold RehabEvaluationApp.stopEvaluation, WebSocketClient.stopEvaluation,
    try_catch, bind.
  simpl. rewrite send_spec by exact Ht.
  change (connection_open _) with (connection_open s).
  destruct (connection_open s); simpl; eexists; (split; [reflexivity |]);
    repeat split; simpl; by rewrite ?app_nil_r.
Qed.

(** C4. In every reachable state a call of [stopEvaluation] returns with the
    evaluating flag cleared and the selection kept (Evaluating becomes Ready),
    hands the stop command to the transport, which transmits it exactly when
    the socket is open, and in both cases leaves the displayed count, stage
    and angle at their reset values. *)
Theorem stop_resets_session s :
  reachable s →
  ∃ s',
    stopEvaluation s = Return tt s' ∧
    isEvaluating s' = false ∧
    selectedAction (actionSelector s') = selectedAction (actionSelector s) ∧
    stats s' = reset_stats ∧
    wire (runtime s') =
      wire (runtime s) ++
      (if connection_open s
       then [JSON_stringify (VObj [("type", VStr "stop_evaluation")])]
       else []) ∧
    alerts (page s') = alerts (page s).
Proof. intros H. apply stopEvaluation_spec, (reachable_inv _ H). Qed.

(** ** The session invariant under user calls (C1) *)

Lemma find_first_by_id id l s :
  find_first (λ action, v ← get_prop action "id"; ret (strict_equal v id)) l s =
  match find_by_id id l with
  | Some r => Return r s
  | None => Throw (TypeError "Cannot read properties of null or undefined") s
  end.
Proof.
  induction l as [|a l IH]; simpl; [reflexivity |].
  unfold bind, get_prop at 1. destruct (prop a "id") as [v|]; simpl; [| reflexivity].
  destruct (strict_equal v id); simpl; [reflexivity | apply IH].
Qed.

Lemma wp_find_by_id id l Q E s :
  match find_by_id id l with
  | Some r => Q r s
  | None => E (TypeError "Cannot read properties of null or undefined") s
  end →
  wp (find_first (λ action, v ← get_prop action "id"; ret (strict_equal v id)) l) Q E s.
Proof.
  unfold wp. rewrite find_first_by_id. destruct (find_by_id id l); auto.
Qed.

Lemma find_by_id_truthy id l a :
  truthy id = true → find_by_id id l = Some (Some a) → truthy a = true.
Proof.
  intros Hid. induction l as [|b l IH]; simpl; [discriminate |].
  destruct (prop b "id") as [v|] eqn:Hv; [| discriminate].
  destruct (strict_equal v id) eqn:Hq; [| exact IH].
  intros [= <-]. destruct b; simpl in *; try reflexivity; try discriminate;
    injection Hv as <-; destruct id; simpl in *; discriminate.
Qed.

Lemma unchanged_eq {A X} (f : State → X) (m : M A) s :
  unchanged f m → f (state_of (m s)) = f s.
Proof. intros H. exact (H (f s) s eq_refl). Qed.

Lemma step_unchanged {X} (f : State → X) s e :
  unchanged f (handler e) →
  (∀ g s', f (set_page (set_uncaught g) s') = f s') →
  f (step s e) = f s.
Proof.
  intros H Hu. rewrite <- (unchanged_eq f (handler e) s H).
  unfold RehabEvaluationApp.step.
  destruct (handler e s); simpl; [reflexivity | apply Hu].
Qed.

Lemma step_proj {X} (f : State → X) s e :
  (∀ g s', f (set_page (set_uncaught g) s') = f s') →
  f (step s e) = f (state_of (handler e s)).
Proof.
  intros H. unfold RehabEvaluationApp.step.
  destruct (handler e s); simpl; [reflexivity | apply H].
Qed.

Lemma call_frame e :
  is_session_call e = true →
  unchanged (λ s, (actions (actionSelector s), socket (wsClient s))) (handler e).
Proof. destruct e; try discriminate; intros _; frame. Qed.

Lemma select_frame actionId :
  unchanged (λ s, (isEvaluating s, socket (wsClient s)))
    (ActionSelector._handleActionChange callSelector actionId).
Proof. frame. Qed.

Lemma start_frame :
  unchanged (λ s, (selectedAction (actionSelector s), socket (wsClient s)))
    startEvaluation.
Proof. frame. Qed.

Lemma stop_clears s : isEvaluating (state_of (stopEvaluation s)) = false.
Proof.
  apply (wp_state_of _ (λ s', isEvaluating s' = false)).
  unfold RehabEvaluationApp.stopEvaluation.
  apply wp_try_catch, wp_bind, wp_modify. cbv beta.
  apply (wp_keeps _ (λ s', isEvaluating s' = false)); [| reflexivity | auto |].
  - keeps_with ltac:(let H := fresh in intros ? H; exact H).
  - intros e s' H. apply (wp_keeps _ (λ s', isEvaluating s' = false));
      [ keeps_with ltac:(let H := fresh in intros ? H; exact H) | exact H | auto | auto ].
Qed.

Lemma select_resolved actionId s :
  resolves s actionId = true →
  exercise_selected
    (state_of (ActionSelector._handleActionChange callSelector actionId s)) = true.
Proof.
  unfold resolves. intros Hr.
  destruct (actions (actionSelector s)) as [| | | | |l|] eqn:Ha; try discriminate.
  destruct (find_by_id (VStr actionId) l) as [[a|]|] eqn:Hf; try discriminate.
  pose proof (find_by_id_truthy (VStr actionId) _ _ Hr Hf) as Hta.
  apply (wp_state_of _ (λ s', truthy (selectedAction (actionSelector s')) = true)).
  unfold ActionSelector._handleActionChange. rewrite Hr.
  apply wp_bind, wp_bind, wp_gets. cbv beta. rewrite Ha.
  unfold array_find. apply wp_bind, wp_bind.
  apply wp_find_by_id. rewrite Hf. cbv beta.
  apply wp_ret, wp_bind, wp_modify. cbv beta.
  eapply (wp_keeps _ (λ s', truthy (selectedAction (actionSelector s')) = true)).
  - unfold when. destruct (truthy (default VUndefined (Some a))); [| apply keeps_ret].
    apply keeps_bind; [keeps_with idtac |]. intros name.
    apply keeps_bind; [keeps_with ltac:(let H := fresh in intros ? H; exact H) |].
    intros _. keeps_with ltac:(let H := fresh in intros ? H; exact H).
  - exact Hta.
  - intros _ s' H.
    apply (wp_keeps _ (λ s', truthy (selectedAction (actionSelector s')) = true));
      [ keeps_with ltac:(let H := fresh in intros ? H; exact H) | exact H | auto | auto ].
  - auto.
Qed.

Lemma call_preserves s e :
  is_session_call e = true →
  actions (actionSelector (step s e)) = actions (actionSelector s) ∧
  socket (wsClient (step s e)) = socket (wsClient s) ∧
  ((isEvaluating s = true → connection_open s = true) →
   isEvaluating (step s e) = true → connection_open (step s e) = true) ∧
  (resolved_call s e = true → session_invariant s → session_invariant (step s e)).
Proof.
  intros He.
  pose proof (step_unchanged _ s e (call_frame e He) (λ _ _, eq_refl)) as Hf.
  injection Hf as Ha Hs.
  split; [exact Ha | split; [exact Hs |]].
  unfold session_invariant, connection_open, exercise_selected. rewrite Hs.
  destruct e; try discriminate; simpl in *.
  - (* SelectExercise *)
    pose proof (step_unchanged _ s (RehabEvaluationApp.SelectExercise actionId)
                  (select_frame actionId) (λ _ _, eq_refl)) as Hg.
    injection Hg as He' _. rewrite He'.
    split; [auto |]. intros Hr Hi Hev. split; [| apply Hi, Hev].
    rewrite (step_proj (λ s, truthy (selectedAction (actionSelector s)))) by reflexivity.
    apply select_resolved, Hr.
  - (* Start *)
    destruct (exercise_selected s) eqn:Hsel;
      [destruct (connection_open s) eqn:Hopen |].
    + pose proof (step_unchanged _ s RehabEvaluationApp.Start
                    start_frame (λ _ _, eq_refl)) as Hg.
      injection Hg as Hsel' _. rewrite Hsel'.
      unfold connection_open in Hopen. unfold exercise_selected in Hsel. auto.
    + unfold RehabEvaluationApp.step. simpl.
      rewrite startEvaluation_rejected by (right; exact Hopen). simpl. auto.
    + unfold RehabEvaluationApp.step. simpl.
      rewrite startEvaluation_rejected by (left; exact Hsel). simpl. auto.
  - (* Stop *)
    rewrite (step_proj isEvaluating) by reflexivity. simpl.
    rewrite stop_clears. split; [discriminate | intros _ _; discriminate].
Qed.

Lemma calls_keep_connection calls s :
  forallb is_session_call calls = true →
  (isEvaluating s = true → connection_open s = true) →
  isEvaluating (run s calls) = true → connection_open (run s calls) = true.
Proof.
  revert s. induction calls as [|e calls IH]; intros s Hc Hs; simpl; [exact Hs |].
  simpl in Hc. apply andb_prop in Hc as [He Hc].
  destruct (call_preserves s e He) as (_ & _ & Hconn & _).
  apply IH; [exact Hc | apply Hconn, Hs].
Qed.

Lemma select_cleared actionId s :
  clears_selection s actionId = true →
  exercise_selected (step s (RehabEvaluationApp.SelectExercise actionId)) = false.
Proof.
  unfold clears_selection, exercise_selected. intros Hc.
  rewrite (step_proj (λ s, truthy (selectedAction (actionSelector s)))) by reflexivity.
  apply (wp_state_of _ (λ s', truthy (selectedAction (actionSelector s')) = false)).
  simpl. unfold ActionSelector._handleActionChange.
  destruct (String.eqb actionId "") eqn:Hid; cbn [negb].
  - apply wp_bind, wp_bind, wp_modify. cbv beta.
    eapply (wp_keeps _ (λ s', truthy (selectedAction (actionSelector s')) = false)).
    + apply keeps_bind; [keeps_with ltac:(let H := fresh in intros ? H; exact H) |].
      intros _. keeps_with ltac:(let H := fresh in intros ? H; exact H).
    + reflexivity.
    + intros _ s' H.
      apply (wp_keeps _ (λ s', truthy (selectedAction (actionSelector s')) = false));
        [ keeps_with ltac:(let H := fresh in intros ? H; exact H) | exact H | auto | auto ].
    + auto.
  - destruct (actions (actionSelector s)) as [| | | | |l|] eqn:Ha; try discriminate.
    destruct (find_by_id (VStr actionId) l) as [[a|]|] eqn:Hf; try discriminate.
    apply wp_bind, wp_bind, wp_gets. cbv beta. rewrite Ha.
    unfold array_find. apply wp_bind, wp_bind.
    apply wp_find_by_id. rewrite Hf. cbv beta.
    apply wp_ret. simpl default. apply wp_bind, wp_modify. cbv beta.
    unfold when. cbn [truthy]. apply wp_ret.
    apply (wp_keeps _ (λ s', truthy (selectedAction (actionSelector s')) = false));
      [ keeps_with ltac:(let H := fresh in intros ? H; exact H) | reflexivity | auto | auto ].
Qed.

Lemma select_raised actionId s :
  String.eqb actionId "" = false →
  match actions (actionSelector s) with
  | VArr l => find_by_id (VStr actionId) l = None
  | _ => True
  end →
  exercise_selected (step s (RehabEvaluationApp.SelectExercise actionId))
    = exercise_selected s.
Proof.
  unfold exercise_selected. intros Hid Ha.
  rewrite (step_proj (λ s, truthy (selectedAction (actionSelector s)))) by reflexivity.
  apply (wp_state_of _ (λ s', truthy (selectedAction (actionSelector s'))
                              = truthy (selectedAction (actionSelector s)))).
  simpl. unfold ActionSelector._handleActionChange. rewrite Hid. cbn [negb].
  apply wp_bind, wp_bind, wp_gets. cbv beta.
  destruct (actions (actionSelector s)) as [| | | | |l|] eqn:E;
    try (apply wp_bind, wp_throw; reflexivity).
  unfold array_find. apply wp_bind, wp_bind, wp_find_by_id. rewrite Ha.
  reflexivity.
Qed.

(** One call: the invariant survives a call that keeps the selection, and
    does not hold after one that does not. *)
Lemma call_keeps_selection s e :
  is_session_call e = true →
  (keeps_selection s e = true → session_invariant s → session_invariant (step s e)) ∧
  (keeps_selection s e = false → ¬ session_invariant (step s e)).
Proof.
  intros He. destruct (call_preserves s e He) as (_ & _ & _ & Hinv).
  destruct e; try discriminate; simpl;
    [| split; [intros _; apply Hinv; reflexivity | discriminate]
     | split; [intros _; apply Hinv; reflexivity | discriminate]].
  pose proof (step_unchanged _ s (RehabEvaluationApp.SelectExercise actionId)
                (select_frame actionId) (λ _ _, eq_refl)) as Hg.
  injection Hg as Hev Hsock.
  split.
  - intros Hk Hi. destruct (isEvaluating s) eqn:Hs.
    + simpl in Hk. apply negb_true_iff in Hk.
      destruct (resolves s actionId) eqn:Hr; [apply Hinv; [exact Hr | exact Hi] |].
      intros _. destruct (Hi Hs) as [Hsel Hopen].
      split; [| unfold connection_open in *; by rewrite Hsock].
      rewrite <- Hsel. unfold clears_selection in Hk. unfold resolves in Hr.
      destruct (String.eqb actionId "") eqn:Hid; [discriminate |].
      apply select_raised; [exact Hid |].
      destruct (actions (actionSelector s)) as [| | | | |l|]; try exact I.
      destruct (find_by_id (VStr actionId) l) as [[a|]|]; simpl in *;
        [discriminate | discriminate | reflexivity].
    + intros H. rewrite Hev in H. discriminate.
  - intros Hk Hi. apply negb_false_iff, andb_prop in Hk as [Hs Hc].
    rewrite <- Hev in Hs. destruct (Hi Hs) as [Hsel _].
    rewrite (select_cleared _ _ Hc) in Hsel. discriminate.
Qed.

Lemma calls_keep_invariant calls s :
  forallb is_session_call calls = true →
  selection_kept JSON_parse JSON_stringify s calls = true →
  session_invariant s → session_invariant (run s calls).
Proof.
  revert s. induction calls as [|e calls IH]; intros s Hc Hk Hs; simpl; [exact Hs |].
  simpl in Hc, Hk. apply andb_prop in Hc as [He Hc]. apply andb_prop in Hk as [Hk1 Hk2].
  destruct (call_keeps_selection s e He) as [Hinv _].
  apply IH; [exact Hc | exact Hk2 | apply Hinv; assumption].
Qed.

Lemma selection_kept_take n calls s :
  selection_kept JSON_parse JSON_stringify s calls = true →
  selection_kept JSON_parse JSON_stringify s (take n calls) = true.
Proof.
  revert n s. induction calls as [|e calls IH]; intros [|n] s; simpl; try reflexivity.
  intros Hk. apply andb_prop in Hk as [Hk1 Hk2].
  rewrite Hk1. simpl. apply IH, Hk2.
Qed.

Lemma forallb_take {A} (f : A → bool) n (l : list A) :
  forallb f l = true → forallb f (take n l) = true.
Proof.
  revert n. induction l as [|x l IH]; intros [|n]; simpl; try reflexivity.
  intros H. apply andb_prop in H as [H1 H2]. rewrite H1. simpl. apply IH, H2.
Qed.

Lemma invariant_needs_selection_kept calls s :
  forallb is_session_call calls = true →
  (∀ n, session_invariant (run s (take n calls))) →
  selection_kept JSON_parse JSON_stringify s calls = true.
Proof.
  revert s. induction calls as [|e calls IH]; intros s Hc Hall; simpl; [reflexivity |].
  simpl in Hc. apply andb_prop in Hc as [He Hc].
  destruct (call_keeps_selection s e He) as [_ Hbreak].
  apply andb_true_intro. split.
  - destruct (keeps_selection s e) eqn:Hk; [reflexivity |].
    destruct (Hbreak eq_refl). exact (Hall 1).
  - apply IH; [exact Hc |]. intros n. exact (Hall (S n)).
Qed.

(** C1, amended. From a state that satisfies the session invariant, after
    any sequence of selectExercise/start/stop calls the evaluating flag implies
    an open connection; the whole invariant (evaluating implies a selected
    exercise and an open connection) holds at the end of a sequence in which
    no selectExercise call made while evaluating clears the selection; and it
    holds after every call of the sequence exactly for these sequences. *)
Theorem session_invariant_unless_cleared_while_evaluating calls s :
  session_invariant s →
  forallb is_session_call calls = true →
  (isEvaluating (run s calls) = true → connection_open (run s calls) = true) ∧
  (selection_kept JSON_parse JSON_stringify s calls = true →
   session_invariant (run s calls)) ∧
  (selection_kept JSON_parse JSON_stringify s calls = true ↔
   ∀ n, session_invariant (run s (take n calls))).
Proof.
  intros Hi Hc. split; [| split; [| split]].
  - apply calls_keep_connection; [exact Hc |]. intros H. apply Hi, H.
  - intros Hk. apply calls_keep_invariant; assumption.
  - intros Hk n. apply calls_keep_invariant;
      [apply forallb_take, Hc | apply selection_kept_take, Hk | exact Hi].
  - apply invariant_needs_selection_kept, Hc.
Qed.

(** ** Dispatch to listeners (C10) *)

Lemma forEach_absorbed {C D} (call : C → D → M unit) eventName (data : D) l s :
  forEach (λ callback,
    try_catch (call callback data)
      (λ error, console_error ("执行" +:+ eventName +:+ "回调时出错:"))) l s
  = Return tt (fold_left (λ s' cb, absorbed eventName (call cb data s')) l s).
Proof.
  revert s. induction l as [|cb l IH]; intros s; simpl; [reflexivity |].
  unfold bind, try_catch at 1. destruct (call cb data s); simpl; apply IH.
Qed.

(** C10. For an event name that is not the name of a property that every
    object inherits from [Object.prototype] (none of the names the scripts
    dispatch under, onOpen, onClose, onMessage, onError and onActionChange,
    is one) and whatever the registered listeners do, a dispatch returns
    without throwing, and its final state is
    the one obtained by calling every listener registered under the event
    name, in registration order, each on the state left by the previous ones:
    a listener that throws is logged and the following listeners are still
    called.  This holds for the dispatcher of [WebSocketClient] and for the
    one of [ActionSelector]. *)
Theorem notifyCallbacks_isolates_listeners eventName :
  plain_name eventName = true →
  (∀ (call : wsCallback → domEvent → M unit) data s,
     WebSocketClient._notifyCallbacks call eventName data s
     = Return tt
         (fold_left (λ s' cb, absorbed eventName (call cb data s'))
            (default [] (callbacks (wsClient s) !! eventName)) s)) ∧
  (∀ (call : selectorCallback → value → M unit) data s,
     ActionSelector._notifyCallbacks call eventName data s
     = Return tt
         (fold_left (λ s' cb, absorbed eventName (call cb data s'))
            (default [] (selectorCallbacks (actionSelector s) !! eventName)) s)).
Proof.
  intros _. split; intros call data s.
  - unfold WebSocketClient._notifyCallbacks, bind, gets.
    destruct (callbacks (wsClient s) !! eventName) as [l|]; simpl;
      [apply forEach_absorbed | reflexivity].
  - unfold ActionSelector._notifyCallbacks, bind, gets.
    destruct (selectorCallbacks (actionSelector s) !! eventName) as [l|]; simpl;
      [apply forEach_absorbed | reflexivity].
Qed.

(** ** Inbound frames never raise (C6) *)

Lemma handleWebSocketMessage_total event : total (handleWebSocketMessage event).
Proof.
  apply total_try_catch. intros e.
  apply total_bind; [apply total_modify | intros _; apply total_modify].
Qed.

Lemma handler_message_total raw :
  total (handler (RehabEvaluationApp.SocketMessage raw)).
Proof.
  simpl. apply total_bind; [apply total_gets |].
  intros [[]|]; try apply total_ret. apply ws_notify_total.
Qed.

Lemma message_frame raw :
  unchanged (λ s, (socket (wsClient s), connected (wsClient s), isEvaluating s))
    (handler (RehabEvaluationApp.SocketMessage raw)).
Proof. frame. Qed.

Lemma handleWebSocketMessage_unknown raw s :
  unknown_message JSON_parse raw = true →
  ∃ lines,
    handleWebSocketMessage (MessageEvent raw) s
    = Return tt (set_page (set_console (λ l, l ++ lines)) s).
Proof.
  unfold unknown_message, RehabEvaluationApp.handleWebSocketMessage, try_catch, bind,
    parse_data.
  destruct (JSON_parse raw) as [m|]; simpl.
  - unfold get_prop. destruct (prop m "type") as [ty|]; simpl.
    + intros H. apply negb_true_iff in H. simpl in H.
      repeat (apply orb_false_elim in H as [-> H]). simpl.
      exists [ConsoleLog "收到WebSocket消息:"; ConsoleLog "未知消息类型:"].
      unfold console_error, modify, set_page, set_console; simpl.
      by rewrite <- !app_assoc.
    + intros _.
      exists [ConsoleLog "收到WebSocket消息:"; ConsoleError "解析WebSocket消息出错:";
              ConsoleError "原始消息:"].
      unfold console_error, modify, set_page, set_console; simpl.
      by rewrite <- !app_assoc.
  - intros _.
    exists [ConsoleError "解析WebSocket消息出错:"; ConsoleError "原始消息:"].
    unfold console_error, modify, set_page, set_console; simpl.
      by rewrite <- !app_assoc.
Qed.

(** C6. For every text received and in every state, the handler of inbound
    frames returns without throwing, and so does the delivery of the message
    event to all listeners; a frame that is not JSON or has no known [type]
    only adds lines to the console; and no frame changes the socket, the
    connected flag or the evaluating flag. *)
Theorem inbound_frames_never_raise raw s :
  returns (handleWebSocketMessage (MessageEvent raw) s) = true ∧
  returns (handler (RehabEvaluationApp.SocketMessage raw) s) = true ∧
  (unknown_message JSON_parse raw = true →
   ∃ lines,
     handleWebSocketMessage (MessageEvent raw) s
     = Return tt (set_page (set_console (λ l, l ++ lines)) s)) ∧
  socket (wsClient (step s (RehabEvaluationApp.SocketMessage raw)))
    = socket (wsClient s) ∧
  connected (wsClient (step s (RehabEvaluationApp.SocketMessage raw)))
    = connected (wsClient s) ∧
  isEvaluating (step s (RehabEvaluationApp.SocketMessage raw)) = isEvaluating s.
Proof.
  split; [apply handleWebSocketMessage_total |].
  split; [apply handler_message_total |].
  split; [apply handleWebSocketMessage_unknown |].
  pose proof (step_unchanged _ s (RehabEvaluationApp.SocketMessage raw)
                (message_frame raw) (λ _ _, eq_refl)) as H.
  injection H as H1 H2 H3. auto.
Qed.

(** ** Loss of the connection (C2) *)

Lemma wp_ws_notify_known call eventName data l Q E s :
  callbacks (wsClient s) !! eventName = Some l →
  wp (forEach (λ callback,
        try_catch (call callback data)
          (λ error, console_error ("执行" +:+ eventName +:+ "回调时出错:"))) l) Q E s →
  wp (WebSocketClient._notifyCallbacks call eventName data) Q E s.
Proof.
  intros Hl H. unfold WebSocketClient._notifyCallbacks.
  apply wp_bind, wp_gets. cbv beta. rewrite Hl. exact H.
Qed.

Lemma closed_stays_closed es s :
  socket (wsClient s) = Some CLOSED →
  socket (wsClient (run s es)) = Some CLOSED.
Proof.
  revert s. induction es as [|e es IH]; intros s H; simpl; [exact H |].
  apply IH. clear IH.
  assert (K : ∀ e', e' ≠ RehabEvaluationApp.SocketOpen →
                    e' ≠ RehabEvaluationApp.SocketClose →
                    unchanged (λ s, socket (wsClient s)) (handler e')).
  { intros e' H1 H2. destruct e'; try congruence; frame. }
  destruct e;
    try (match goal with
         | |- context [step s ?e] =>
             rewrite (step_unchanged (λ s, socket (wsClient s)) s e
                        (K e ltac:(discriminate) ltac:(discriminate)) (λ _ _, eq_refl))
         end; exact H).
  - apply step_wp. repeat wp_step; try exact H; congruence.
  - apply step_wp. repeat wp_step; try exact H; congruence.
Qed.

Lemma close_transport s :
  connection_open s = true →
  socket (wsClient (step s RehabEvaluationApp.SocketClose)) = Some CLOSED ∧
  connected (wsClient (step s RehabEvaluationApp.SocketClose)) = false.
Proof.
  intros Ho. apply bool_decide_eq_true in Ho.
  apply (step_wp (λ s', socket (wsClient s') = Some CLOSED
                        ∧ connected (wsClient s') = false)).
  unfold RehabEvaluationApp.handler. apply wp_bind, wp_gets. cbv beta. rewrite Ho.
  apply wp_bind, wp_modify. cbv beta. unfold WebSocketClient.onclose.
  apply wp_bind, wp_modify. cbv beta.
  apply (wp_keeps _ (λ s', socket (wsClient s') = Some CLOSED
                           ∧ connected (wsClient s') = false)); auto.
  keeps_with ltac:(let H := fresh in intros ? H; exact H).
Qed.

Lemma loss_leaves_session s e :
  app_inv s → isEvaluating s = true →
  e = RehabEvaluationApp.SocketClose ∨ e = RehabEvaluationApp.SocketError →
  isEvaluating (step s e) = true ∧
  selectedAction (actionSelector (step s e)) = selectedAction (actionSelector s) ∧
  alerts (page (step s e)) = alerts (page s) ∧
  wire (runtime (step s e)) = wire (runtime s).
Proof.
  intros ((Ho & Hc & Herr & Hm & Hn & Hs) & Ht & Hp) Hev He.
  destruct He as [-> | ->].
  - apply step_wp. repeat wp_step; cbv beta;
      try (eapply wp_ws_notify_known; [exact Hc |]; cbn [forEach];
           repeat wp_step; cbv beta);
      repeat split; auto.
  - apply step_wp. repeat wp_step; cbv beta;
      try (eapply wp_ws_notify_known; [exact Herr |]; cbn [forEach];
           repeat wp_step; cbv beta);
      repeat split; auto;
      exfalso; simpl in *;
      match goal with
      | H : connectPromise (runtime s) = Pending |- _ =>
          destruct (Hp H); congruence
      end.
Qed.

(** C2, amended. When the socket closes or errors while the session is
    evaluating, the handlers only log: the evaluating flag stays set, the
    selection is kept, nothing is shown to the user and nothing is sent.  On
    close the transport clears its connected flag and, no reconnection being
    attempted, the connection is never open again. *)
Theorem connection_loss_leaves_session_evaluating s e :
  reachable s → isEvaluating s = true →
  e = RehabEvaluationApp.SocketClose ∨ e = RehabEvaluationApp.SocketError →
  isEvaluating (step s e) = true ∧
  selectedAction (actionSelector (step s e)) = selectedAction (actionSelector s) ∧
  alerts (page (step s e)) = alerts (page s) ∧
  wire (runtime (step s e)) = wire (runtime s) ∧
  (e = RehabEvaluationApp.SocketClose → connection_open s = true →
   connected (wsClient (step s e)) = false ∧
   ∀ es, connection_open (run (step s e) es) = false).
Proof.
  intros Hr Hev He.
  destruct (loss_leaves_session s e (reachable_inv _ Hr) Hev He) as (H1 & H2 & H3 & H4).
  repeat (split; [assumption |]).
  intros -> Ho. destruct (close_transport s Ho) as [Hs Hc].
  split; [exact Hc |]. intros es. unfold connection_open.
  rewrite (closed_stays_closed es _ Hs). reflexivity.
Qed.

(** ** The result sink (C5) *)

Lemma forEach_map {A B} (f : B → M unit) (g : A → B) (l : list A) :
  forEach f (map g l) = forEach (λ x, f (g x)) l.
Proof. induction l as [|x l IH]; simpl; [reflexivity | by rewrite IH]. Qed.

Lemma prop_of_object m k k' v : prop m k = Some v → prop m k' ≠ None.
Proof. destruct m; simpl; intros H; try discriminate; congruence. Qed.

Lemma updateStats_sink stats0 s :
  wp (ActionSelector.updateStats stats0)
    (λ _ s', sink (runtime s') = sink (runtime s) ++ [UpdateStats stats0])
    (λ _ s', sink (runtime s') = sink (runtime s) ++ [UpdateStats stats0]) s.
Proof.
  unfold ActionSelector.updateStats. apply wp_bind. simple apply wp_modify. cbv beta.
  apply (wp_keeps _ (λ s', sink (runtime s') = sink (runtime s) ++ [UpdateStats stats0]));
    [| reflexivity | auto | auto].
  keeps_with ltac:(let H := fresh in intros ? H; exact H).
Qed.

Lemma handleProcessedFrame_sink result s :
  wp (RehabEvaluationApp.handleProcessedFrame result)
    (λ _ s', sink (runtime s') = sink (runtime s) ++ [HandleProcessedFrame result])
    (λ _ s', sink (runtime s') = sink (runtime s) ++ [HandleProcessedFrame result]) s.
Proof.
  unfold RehabEvaluationApp.handleProcessedFrame. apply wp_bind.
  simple apply wp_modify. cbv beta.
  apply (wp_keeps _ (λ s', sink (runtime s')
                           = sink (runtime s) ++ [HandleProcessedFrame result]));
    [| reflexivity | auto | auto].
  keeps_with ltac:(let H := fresh in intros ? H; exact H).
Qed.

Lemma updateActions_sink acts :
  unchanged (λ s, sink (runtime s)) (ActionSelector.updateActions callSelector acts).
Proof. frame. Qed.

Lemma handleWebSocketMessage_sink raw s :
  wp (handleWebSocketMessage (MessageEvent raw))
    (λ _ s', sink (runtime s') =
             sink (runtime s) ++
             (if isEvaluating s then forwarded JSON_parse raw else []))
    (λ _ _, False) s.
Proof.
  unfold RehabEvaluationApp.handleWebSocketMessage. apply wp_try_catch.
  set (R := λ s' : State, sink (runtime s') =
             sink (runtime s) ++
             (if isEvaluating s then forwarded JSON_parse raw else [])).
  apply (wp_mono _ (λ _, R) _ (λ _, R)); [| auto |].
  2: { intros e s' HR. repeat wp_step. exact HR. }
  subst R. unfold forwarded.
  destruct (isEvaluating s) eqn:Hev;
    repeat wp_step; cbv beta; simpl in *; rewrite ?app_nil_r; try reflexivity;
    try congruence;
    try (exfalso;
         match goal with
         | H1 : prop ?m _ = Some _, H2 : prop ?m _ = None |- _ =>
             exact (prop_of_object _ _ _ _ H1 H2)
         end);
    try exact (handleProcessedFrame_sink _ _);
    try exact (updateStats_sink _ _);
    (apply (wp_keeps _ (λ s', sink (runtime s') = sink (runtime s)));
     [ apply updateActions_sink | reflexivity
     | intros _ s' H; repeat wp_step; exact H | auto ]).
Qed.

Lemma fetch_listener_sink p ev :
  unchanged (λ s, sink (runtime s)) (callWs (FetchHandleMessage p) ev).
Proof. frame. Qed.

Lemma total_keeps_listeners (I : State → Prop) ps ev s Q E :
  (∀ p, keeps I (callWs (FetchHandleMessage p) ev)) →
  (∀ msg, keeps I (console_error msg)) →
  I s → (∀ s', I s' → Q tt s') →
  wp (forEach (λ callback,
        try_catch (callWs callback ev)
          (λ error, console_error ("执行" +:+ "onMessage" +:+ "回调时出错:")))
        (map FetchHandleMessage ps)) Q E s.
Proof.
  intros Hk Hc HI HQ. rewrite forEach_map.
  apply (wp_keeps_total _ I); [| | exact HI | intros []; exact HQ].
  - apply keeps_forEach. intros p. apply keeps_try_catch; [apply Hk |].
    intros e. apply Hc.
  - apply total_forEach. intros p. apply total_try_catch. intros e. apply total_modify.
Qed.

Lemma message_step_sink s raw :
  wired s → connection_open s = true →
  sink (runtime (step s (RehabEvaluationApp.SocketMessage raw))) =
  sink (runtime s) ++ (if isEvaluating s then forwarded JSON_parse raw else []).
Proof.
  intros (_ & _ & _ & [ps Hm] & _ & _) Ho. apply bool_decide_eq_true in Ho.
  apply (step_wp (λ s', sink (runtime s') = _)).
  unfold RehabEvaluationApp.handler. apply wp_bind, wp_gets. cbv beta. rewrite Ho.
  unfold WebSocketClient.onmessage.
  eapply wp_ws_notify_known; [exact Hm |]. cbn [forEach].
  apply wp_bind, wp_try_catch.
  eapply wp_mono; [apply handleWebSocketMessage_sink | | intros _ _ []].
  intros [] s1 H1. cbv beta.
  apply (total_keeps_listeners (λ s', sink (runtime s') = sink (runtime s1)));
    [ intros p; apply fetch_listener_sink
    | intros msg; keeps_with ltac:(let H := fresh in intros ? H; exact H)
    | reflexivity
    | intros s' H; rewrite H; exact H1 ].
Qed.

Lemma handleWebSocketMessage_idle ev x :
  keeps (λ s, isEvaluating s = false ∧ stats s = x) (handleWebSocketMessage ev).
Proof.
  intros s [Hev Hst].
  apply (wp_state_of _ (λ s', isEvaluating s' = false ∧ stats s' = x)).
  unfold RehabEvaluationApp.handleWebSocketMessage.
  repeat wp_step; cbv beta; simpl in *; try congruence; try (split; assumption).
  apply (wp_keeps _ (λ s', isEvaluating s' = false ∧ stats s' = x));
    [ keeps_with ltac:(let H := fresh in intros ? H; exact H)
    | split; assumption
    | intros _ s' H; repeat wp_step; cbv beta; exact H
    | intros e s' H; repeat wp_step; cbv beta; exact H ].
Qed.

Lemma callWs_idle cb ev x :
  keeps (λ s, isEvaluating s = false ∧ stats s = x) (callWs cb ev).
Proof.
  destruct cb; try exact (handleWebSocketMessage_idle ev x);
    keeps_with ltac:(let H := fresh in intros ? H; exact H).
Qed.

Lemma message_idle s raw :
  isEvaluating s = false →
  stats (step s (RehabEvaluationApp.SocketMessage raw)) = stats s.
Proof.
  intros Hev.
  apply (step_keeps (λ s', isEvaluating s' = false ∧ stats s' = stats s));
    [| intros ? ? K; exact K | split; [exact Hev | reflexivity]].
  unfold RehabEvaluationApp.handler.
  apply keeps_bind; [apply keeps_gets |]. intros [[]|]; try apply keeps_ret.
  apply ws_notify_keeps; [intros cb; apply callWs_idle |].
  intros msg. keeps_with ltac:(let H := fresh in intros ? H; exact H).
Qed.

Lemma messages_sink raws s :
  wired s → connection_open s = true →
  sink (runtime (run s (map RehabEvaluationApp.SocketMessage raws))) =
  sink (runtime s) ++
  (if isEvaluating s then flat_map (forwarded JSON_parse) raws else []).
Proof.
  revert s. induction raws as [|raw raws IH]; intros s Hw Ho; simpl.
  - destruct (isEvaluating s); by rewrite app_nil_r.
  - pose proof (step_unchanged _ s (RehabEvaluationApp.SocketMessage raw)
                  (message_frame raw) (λ _ _, eq_refl)) as Hf.
    injection Hf as Hs Hc He.
    assert (Hw' : wired (step s (RehabEvaluationApp.SocketMessage raw))).
    { apply (step_keeps wired); [| intros ? ? K; exact K | exact Hw].
      keeps_with inv_update. }
    rewrite IH; [| exact Hw' | unfold connection_open in *; by rewrite Hs].
    rewrite He, message_step_sink by assumption.
    destruct (isEvaluating s); by rewrite <- app_assoc.
Qed.

(** C5. In a reachable state with the connection open, the frames received
    one after the other make the sink receive exactly the calls the
    specification lists for them, once each and in arrival order, when the
    session is evaluating, and none when it is not; and a frame that arrives
    right after [stopEvaluation] leaves the displayed statistics at their
    reset values. *)
Theorem results_forwarded_once_in_order raws s :
  reachable s → connection_open s = true →
  sink (runtime (run s (map RehabEvaluationApp.SocketMessage raws))) =
    sink (runtime s) ++
    (if isEvaluating s then flat_map (forwarded JSON_parse) raws else []) ∧
  ∀ raw,
    stats (run s [RehabEvaluationApp.Stop; RehabEvaluationApp.SocketMessage raw])
    = reset_stats.
Proof.
  intros Hr Ho. destruct (reachable_inv _ Hr) as (Hw & Ht & Hp).
  split; [apply messages_sink; assumption |].
  intros raw. simpl.
  destruct (stopEvaluation_spec s Ht) as (s' & Hs' & Hev & _ & Hst & _).
  assert (Hstep : step s RehabEvaluationApp.Stop = s').
  { unfold RehabEvaluationApp.step. simpl. by rewrite Hs'. }
  rewrite Hstep, message_idle by exact Hev. exact Hst.
Qed.

(** ** The catalog fetch and its REST fallback (C9) *)

Lemma fetchActionsRest_resume_total r :
  total (ActionSelector.fetchActionsRest_resume r).
Proof.
  apply total_try_catch. intros e.
  apply total_bind; [apply total_modify | intros _; apply total_ret].
Qed.

(** The inner catch block of [fetchActions], with its alert, never runs: the
    body of [fetchActionsRest] catches every error itself. *)
Lemma fetchActions_rest_silent r s :
  alerts (page (state_of (RehabEvaluationApp.fetchActions_rest r s)))
    = alerts (page s) ∧
  restRequests (runtime (state_of (RehabEvaluationApp.fetchActions_rest r s)))
    = restRequests (runtime s) ∧
  returns (RehabEvaluationApp.fetchActions_rest r s) = true.
Proof.
  set (I := λ s', alerts (page s') = alerts (page s)
                  ∧ restRequests (runtime s') = restRequests (runtime s)).
  assert (H : wp (RehabEvaluationApp.fetchActions_rest r)
                (λ _ s', I s') (λ _ _, False) s).
  { unfold RehabEvaluationApp.fetchActions_rest. apply wp_try_catch, wp_bind.
    apply (wp_keeps_total _ I).
    - subst I. keeps_with ltac:(let H := fresh in intros ? H; exact H).
    - apply fetchActionsRest_resume_total.
    - split; reflexivity.
    - intros v s' H. exact H. }
  unfold wp in H. destruct (RehabEvaluationApp.fetchActions_rest r s); simpl.
  - destruct H. auto.
  - destruct H.
Qed.

Lemma rest_response_silent r s :
  alerts (page (step s (RehabEvaluationApp.RestArrives r))) = alerts (page s) ∧
  restRequests (runtime (step s (RehabEvaluationApp.RestArrives r)))
    = restRequests (runtime s).
Proof.
  apply (step_wp (λ s', alerts (page s') = alerts (page s)
                        ∧ restRequests (runtime s') = restRequests (runtime s))).
  unfold RehabEvaluationApp.handler. apply wp_bind, wp_gets. cbv beta.
  destruct (restOutstanding (runtime s)) as [|n]; [by apply wp_ret |].
  apply wp_bind. simple apply wp_modify. cbv beta.
  unfold resume. apply wp_try_catch.
  destruct (fetchActions_rest_silent r
              (set_runtime (set_restOutstanding (λ _, n)) s)) as (Ha & Hq & Hret).
  unfold wp.
  destruct (RehabEvaluationApp.fetchActions_rest r _); simpl in *;
    [split; assumption | discriminate].
Qed.

(** ** Catalog refresh (C7) *)

Lemma truthy_prop v k : truthy v = true → prop v k ≠ None.
Proof. destruct v; simpl; intros H; discriminate. Qed.






Lemma onActionChange_spec a s :
  transport_ok s →
  wp (RehabEvaluationApp.onActionChange JSON_stringify a)
    (λ _ s',
       isEvaluating s' = isEvaluating s ∧
       selectedAction (actionSelector s') = selectedAction (actionSelector s) ∧
       wire (runtime s') =
         wire (runtime s) ++
         (if connection_open s && truthy a
          then [JSON_stringify (action_select a)] else []))
    (λ _ _, False) s.
Proof.
  intros Ht. unfold RehabEvaluationApp.onActionChange, action_select, connection_open.
  destruct (truthy a) eqn:Hta;
    destruct (bool_decide (socket (wsClient s) = Some OPEN)) eqn:Hopen;
    repeat wp_step; cbv beta; simpl in *; rewrite ?app_nil_r; auto; try congruence;
    try (exfalso; eapply truthy_prop; eassumption);
    try (rewrite Hopen in *; simpl in *; discriminate).
  all: apply wp_send; [exact Ht |]; unfold connection_open; simpl; rewrite Hopen;
    repeat wp_step; cbv beta; simpl; auto.
Qed.

Lemma wp_selector_notify_known call eventName data l Q E s :
  selectorCallbacks (actionSelector s) !! eventName = Some l →
  wp (forEach (λ callback,
        try_catch (call callback data)
          (λ error, console_error ("执行" +:+ eventName +:+ "回调时出错:"))) l) Q E s →
  wp (ActionSelector._notifyCallbacks call eventName data) Q E s.
Proof.
  intros Hl H. unfold ActionSelector._notifyCallbacks.
  apply wp_bind, wp_gets. cbv beta. rewrite Hl. exact H.
Qed.

(** The announcement made by the only listener of the selector. *)
Lemma announce_spec a s (Q : unit → State → Prop) E :
  selectorCallbacks (actionSelector s) !! "onActionChange" = Some [AppOnActionChange] →
  transport_ok s →
  (∀ s', isEvaluating s' = isEvaluating s →
         selectedAction (actionSelector s') = selectedAction (actionSelector s) →
         wire (runtime s') =
           wire (runtime s) ++
           (if connection_open s && truthy a
            then [JSON_stringify (action_select a)] else []) →
         Q tt s') →
  wp (ActionSelector._notifyCallbacks callSelector "onActionChange" a) Q E s.
Proof.
  intros Hreg Ht HQ.
  eapply wp_selector_notify_known; [exact Hreg |]. cbn [forEach].
  apply wp_bind, wp_try_catch.
  change (callSelector AppOnActionChange a)
    with (RehabEvaluationApp.onActionChange JSON_stringify a).
  eapply wp_mono; [apply onActionChange_spec, Ht | | intros _ _ []].
  intros [] s' (H1 & H2 & H3). cbv beta. apply wp_ret. apply HQ; assumption.
Qed.





(** * Further properties of the scripts *)

(** ** The listener registries *)

Lemma filter_ne_app_singleton (callback : wsCallback) (l : list wsCallback) :
  filter (λ cb, cb ≠ callback) (l ++ [callback]) = filter (λ cb, cb ≠ callback) l.
Proof.
  rewrite filter_app, filter_cons_False, filter_nil, app_nil_r; [reflexivity |].
  intros H. by apply H.
Qed.

Lemma filter_ne_absent (callback : wsCallback) (l : list wsCallback) :
  callback ∉ l → filter (λ cb, cb ≠ callback) l = l.
Proof.
  induction l as [|x l IH]; intros H; [reflexivity |].
  apply not_elem_of_cons in H as [Hx Hl].
  rewrite filter_cons_True by congruence. by rewrite IH.
Qed.

(** X1. For an event name that is not a property inherited by every object
    (the registry is modelled as a map of its own properties),
    [WebSocketClient.removeEventListener] called after [WebSocketClient.on]
    with the same event name and listener leaves under that name the listeners
    registered before, without any occurrence of the listener (an entry is
    created for a name that had none, and stays, empty); the other names are
    untouched; and when the listener was not registered before under an
    existing name, the client is exactly as it was. *)
Theorem removeEventListener_undoes_on eventName callback s :
  plain_name eventName = true →
  callbacks (wsClient (state_of (WebSocketClient.removeEventListener eventName callback
    (state_of (WebSocketClient.on eventName callback s)))))
  = <[eventName := filter (λ cb, cb ≠ callback)
                     (default [] (callbacks (wsClient s) !! eventName))]>
      (callbacks (wsClient s)) ∧
  (∀ l, callbacks (wsClient s) !! eventName = Some l → callback ∉ l →
     wsClient (state_of (WebSocketClient.removeEventListener eventName callback
       (state_of (WebSocketClient.on eventName callback s)))) = wsClient s).
Proof.
  intros _.
  assert (E : callbacks (wsClient (state_of
      (WebSocketClient.removeEventListener eventName callback
         (state_of (WebSocketClient.on eventName callback s)))))
    = <[eventName := filter (λ cb, cb ≠ callback)
                       (default [] (callbacks (wsClient s) !! eventName))]>
        (callbacks (wsClient s))).
  { simpl. rewrite lookup_insert_eq, insert_insert_eq.
    by rewrite filter_ne_app_singleton. }
  split; [exact E |].
  intros l Hl Hn.
  assert (R : ∀ w w' : WebSocketClientT,
    socket w' = socket w → connected w' = connected w → callbacks w' = callbacks w →
    w' = w) by (intros [] []; simpl; congruence).
  apply R; [reflexivity | reflexivity |].
  rewrite E, Hl. simpl. rewrite filter_ne_absent by exact Hn.
  by rewrite insert_id by exact Hl.
Qed.

(** X2. [ActionSelector.on] ignores an event name that has no entry (only
    onActionChange has one after the constructor; names inherited by every
    object apart): the registry is unchanged and a dispatch under that name
    calls nobody.  A listener registered under an existing name cannot be
    unregistered: [removeEventListener] only warns, and the next dispatch
    still calls the listener, last. *)
Theorem selector_on_unknown_name_and_no_removal (call : selectorCallback → value → M unit)
    eventName callback data s :
  plain_name eventName = true →
  (selectorCallbacks (actionSelector s) !! eventName = None →
   selectorCallbacks (actionSelector (state_of (ActionSelector.on eventName callback s)))
     = selectorCallbacks (actionSelector s) ∧
   ActionSelector._notifyCallbacks call eventName data
     (state_of (ActionSelector.on eventName callback s))
   = Return tt (state_of (ActionSelector.on eventName callback s))) ∧
  (∀ l, selectorCallbacks (actionSelector s) !! eventName = Some l →
     ActionSelector._notifyCallbacks call eventName data
       (state_of (ActionSelector.removeEventListener eventName callback
          (state_of (ActionSelector.on eventName callback s))))
     = Return tt
         (absorbed eventName
            (call callback data
               (fold_left (λ s' cb, absorbed eventName (call cb data s')) l
                  (state_of (ActionSelector.removeEventListener eventName callback
                     (state_of (ActionSelector.on eventName callback s)))))))).
Proof.
  intros _. split.
  - intros Hn. unfold ActionSelector._notifyCallbacks, bind, gets. simpl.
    rewrite Hn. simpl. rewrite Hn. split; reflexivity.
  - intros l Hl. unfold ActionSelector._notifyCallbacks, bind, gets. simpl.
    rewrite Hl, lookup_insert_eq, forEach_absorbed, fold_left_app. reflexivity.
Qed.

(** ** Disconnecting *)

(** X3. In a state where the connected flag follows the socket (every
    reachable state), [disconnect] returns; afterwards [isConnected] answers
    false (null, when there is no socket) and every [send] is refused without
    transmitting, while
    [getConnectionStatus] still answers with the flag as it was before the
    call (the flag is cleared by the close event only); a second [disconnect]
    changes nothing. *)
Theorem disconnect_stops_sending s message :
  transport_ok s →
  ∃ s1,
    WebSocketClient.disconnect s = Return tt s1 ∧
    WebSocketClient.isConnected s1 = Return false s1 ∧
    WebSocketClient.getConnectionStatus s1 = Return (connected (wsClient s)) s1 ∧
    send message s1
    = Return false
        (set_page (set_console
           (λ l, l ++ [ConsoleError "WebSocket未连接，无法发送消息"])) s1) ∧
    WebSocketClient.disconnect s1 = Return tt s1.
Proof.
  unfold transport_ok, WebSocketClient.disconnect, WebSocketClient.isConnected,
    WebSocketClient.getConnectionStatus, WebSocketClient.send, bind, gets, ret, throw,
    modify, console_error.
  destruct (socket (wsClient s)) as [[]|] eqn:Hs, (connected (wsClient s)) eqn:Hc;
    intros H; try discriminate; eexists; (split; [reflexivity |]); simpl;
    rewrite ?Hs, ?Hc; simpl; repeat split.
Qed.

(** ** Selecting an exercise *)

Lemma wp_and_keeps {A} (m : M A) (I : State → Prop) Q E s :
  wp m Q E s → keeps I m → I s →
  wp m (λ a s', Q a s' ∧ I s') (λ e s', E e s' ∧ I s') s.
Proof.
  intros Hw Hk HI. specialize (Hk s HI). unfold wp in *.
  destruct (m s); simpl in Hk; auto.
Qed.

Lemma selector_notify_display a :
  unchanged display (ActionSelector._notifyCallbacks callSelector "onActionChange" a).
Proof. frame. Qed.

Lemma nonempty_eqb (actionId : string) : actionId ≠ "" → String.eqb actionId "" = false.
Proof. intros H. by apply String.eqb_neq. Qed.



(** X5. Selecting a non-empty id that the cached catalog (an array without
    null entry before the end) does not contain: the selection becomes
    undefined and the statistics are reset, but the displayed name of the
    exercise is left as it was, nobody is notified (no command is sent,
    nothing is logged or alerted) and no error escapes. *)
Theorem select_unknown_clears_silently s actionId l :
  actions (actionSelector s) = VArr l →
  actionId ≠ "" →
  find_by_id (VStr actionId) l = Some None →
  selectedAction (actionSelector (step s (RehabEvaluationApp.SelectExercise actionId)))
    = VUndefined ∧
  currentActionElement (actionSelector
      (step s (RehabEvaluationApp.SelectExercise actionId)))
    = currentActionElement (actionSelector s) ∧
  stats (step s (RehabEvaluationApp.SelectExercise actionId)) = reset_stats ∧
  runtime (step s (RehabEvaluationApp.SelectExercise actionId)) = runtime s ∧
  page (step s (RehabEvaluationApp.SelectExercise actionId)) = page s ∧
  isEvaluating (step s (RehabEvaluationApp.SelectExercise actionId)) = isEvaluating s.
Proof.
  intros Ha Hne Hf.
  apply (step_wp (λ s', selectedAction (actionSelector s') = _ ∧
    currentActionElement (actionSelector s') = _ ∧ stats s' = _ ∧
    runtime s' = _ ∧ page s' = _ ∧ isEvaluating s' = _)).
  unfold RehabEvaluationApp.handler, ActionSelector._handleActionChange.
  rewrite nonempty_eqb by exact Hne. cbn [negb].
  apply wp_bind, wp_bind, wp_gets. cbv beta. rewrite Ha.
  unfold array_find. apply wp_bind, wp_bind, wp_find_by_id. rewrite Hf.
  cbv beta. apply wp_ret. simpl default. apply wp_bind. simple apply wp_modify.
  cbv beta. unfold when. cbn [truthy]. apply wp_ret.
  unfold ActionSelector.resetStats. repeat wp_step. simpl. repeat split.
Qed.

(** X6. Selecting the empty option in a reachable state: the selection
    becomes null, the name display shows the placeholder, the statistics are
    reset, and the listener of the application sends nothing, whatever the
    state of the socket; the evaluating flag is left as it was. *)
Theorem select_empty_deselects s :
  reachable s →
  selectedAction (actionSelector (step s (RehabEvaluationApp.SelectExercise ""))) = VNull ∧
  currentActionElement (actionSelector (step s (RehabEvaluationApp.SelectExercise "")))
    = Lit "未选择" ∧
  stats (step s (RehabEvaluationApp.SelectExercise "")) = reset_stats ∧
  wire (runtime (step s (RehabEvaluationApp.SelectExercise ""))) = wire (runtime s) ∧
  alerts (page (step s (RehabEvaluationApp.SelectExercise ""))) = alerts (page s) ∧
  uncaught (page (step s (RehabEvaluationApp.SelectExercise ""))) = uncaught (page s) ∧
  isEvaluating (step s (RehabEvaluationApp.SelectExercise "")) = isEvaluating s.
Proof.
  intros Hr.
  destruct (reachable_inv _ Hr) as ((_ & _ & _ & _ & _ & Hreg) & Ht & _).
  apply (step_wp (λ s', selectedAction (actionSelector s') = _ ∧
    currentActionElement (actionSelector s') = _ ∧ stats s' = _ ∧
    wire (runtime s') = _ ∧ alerts (page s') = _ ∧ uncaught (page s') = _ ∧
    isEvaluating s' = _)).
  unfold RehabEvaluationApp.handler, ActionSelector._handleActionChange.
  cbn [String.eqb negb].
  apply wp_bind, wp_bind. simple apply wp_modify. cbv beta.
  apply wp_bind. simple apply wp_modify. cbv beta.
  match goal with |- wp _ _ _ ?s2 => set (s1 := s2) end.
  eapply wp_mono;
    [ apply (wp_and_keeps _ (λ s', display s' = display s1));
        [ apply (announce_spec VNull s1 (λ _ s',
            isEvaluating s' = isEvaluating s1 ∧
            selectedAction (actionSelector s') = selectedAction (actionSelector s1) ∧
            wire (runtime s') =
              wire (runtime s1) ++
              (if connection_open s1 && truthy VNull
               then [JSON_stringify (action_select VNull)] else [])) (λ _ _, False));
            [exact Hreg | exact Ht | auto]
        | apply selector_notify_display
        | reflexivity ]
    | | intros _ _ [[] _] ].
  intros [] s2 [(H1 & H2 & H3) Hd]. cbv beta.
  unfold display in Hd. injection Hd as Hd1 Hd2 Hd3 Hd4 Hd5 Hd6 Hd7 Hd8.
  rewrite andb_false_r, app_nil_r in H3.
  unfold ActionSelector.resetStats. repeat wp_step.
  subst s1. simpl in *. repeat split; congruence.
Qed.

(** X7. When the cached catalog is not an array, or has a null entry before
    any entry with the id, selecting a non-empty id raises a TypeError that
    leaves the listener: the page is exactly as before apart from the reported
    error, so the selection is not changed and the statistics are not reset. *)
Theorem select_with_broken_catalog_raises s actionId :
  actionId ≠ "" →
  match actions (actionSelector s) with
  | VArr l => find_by_id (VStr actionId) l = None
  | _ => True
  end →
  ∃ msg,
    step s (RehabEvaluationApp.SelectExercise actionId)
    = set_page (set_uncaught (λ l, l ++ [TypeError msg])) s.
Proof.
  intros Hne Ha.
  apply (step_wp (λ s', ∃ msg, s' = set_page (set_uncaught (λ l, l ++ [TypeError msg])) s)).
  unfold RehabEvaluationApp.handler, ActionSelector._handleActionChange.
  rewrite nonempty_eqb by exact Hne. cbn [negb].
  apply wp_bind, wp_bind, wp_gets. cbv beta.
  destruct (actions (actionSelector s)) as [| | | | |l|] eqn:E;
    try (apply wp_bind, wp_throw; eexists; reflexivity).
  unfold array_find. apply wp_bind, wp_bind, wp_find_by_id. rewrite Ha.
  eexists; reflexivity.
Qed.

(** ** The statistics display *)



(** ** Rendering the catalog *)




Lemma populate_not_array s :
  (∀ l, actions (actionSelector s) ≠ VArr l) →
  ∃ msg,
    ActionSelector._populateActionSelect s
    = Throw (TypeError msg)
        (set_actionSelector (set_selectElement (λ e,
           mkSelect (rendered []) "" (changeListeners e))) s).
Proof.
  intros H. unfold ActionSelector._populateActionSelect.
  unfold bind at 1 2 3 4. unfold modify at 1. unfold ActionSelector.appendOption at 1.
  unfold modify at 1. unfold gets at 1. simpl actions.
  destruct (actions (actionSelector s)) eqn:E; try (eexists; reflexivity).
  exfalso. eapply H. reflexivity.
Qed.

Lemma wp_returns {A} (m : M A) (Q : A → State → Prop) s :
  wp m Q (λ _ _, False) s → ∃ a s', m s = Return a s' ∧ Q a s'.
Proof. unfold wp. destruct (m s) as [a s'|]; [eauto | intros []]. Qed.

Lemma wp_of_throw {A} (m : M A) (Q : A → State → Prop) E e s s' :
  m s = Throw e s' → E e s' → wp m Q E s.
Proof. intros H HE. unfold wp. by rewrite H. Qed.


(** X11. An actions_list frame whose [actions] field is not an array is
    stored all the same: [handleWebSocketMessage] returns, the cached catalog
    is the value received, the select element holds the placeholder option
    only, the selection is as before, nothing is sent, and the failure shows
    as the two console lines of the catch block (after the three log lines of
    the normal path). *)
Theorem actions_list_without_array_is_stored s raw m v :
  JSON_parse raw = Some m →
  prop m "type" = Some (VStr "actions_list") →
  prop m "actions" = Some v →
  (∀ l, v ≠ VArr l) →
  ∃ s',
    handleWebSocketMessage (MessageEvent raw) s = Return tt s' ∧
    actions (actionSelector s') = v ∧
    options (selectElement (actionSelector s')) = rendered [] ∧
    selectedAction (actionSelector s') = selectedAction (actionSelector s) ∧
    wire (runtime s') = wire (runtime s) ∧
    console (page s') =
      console (page s) ++
      [ConsoleLog "收到WebSocket消息:"; ConsoleLog "收到动作列表:";
       ConsoleLog "更新动作列表:"; ConsoleError "解析WebSocket消息出错:";
       ConsoleError "原始消息:"].
Proof.
  intros Hparse Hty Hacts Hv.
  match goal with |- ∃ s', _ = _ ∧ ?P =>
    enough (W : wp (handleWebSocketMessage (MessageEvent raw))
                  (λ _ s', P) (λ _ _, False) s)
  end.
  { clear - W. pattern s in W.
    apply wp_returns in W as ([] & s' & H1 & H2). eauto. }
  unfold RehabEvaluationApp.handleWebSocketMessage.
  apply wp_try_catch, wp_bind. unfold parse_data. rewrite Hparse.
  apply wp_ret, wp_bind. unfold console_log. simple apply wp_modify. cbv beta.
  apply wp_bind. unfold get_prop at 1. rewrite Hty. apply wp_ret.
  cbn [strict_equal String.eqb Ascii.eqb Bool.eqb].
  apply wp_bind. unfold get_prop at 1. rewrite Hacts. apply wp_ret.
  apply wp_bind. simple apply wp_modify. cbv beta.
  apply wp_bind. unfold ActionSelector.updateActions.
  apply wp_bind. unfold console_log. simple apply wp_modify. cbv beta.
  apply wp_bind. simple apply wp_modify. cbv beta.
  apply wp_bind, wp_gets. cbv beta. simpl selectedAction.
  apply wp_bind.
  assert (Hsel : ∀ Q E s0,
    (∀ x, Q x s0) →
    wp (if truthy (selectedAction (actionSelector s))
        then get_prop (selectedAction (actionSelector s)) "id" else ret VNull) Q E s0).
  { intros Q E s0 HQ. destruct (truthy (selectedAction (actionSelector s))) eqn:Hsel.
    - unfold get_prop.
      destruct (prop (selectedAction (actionSelector s)) "id") eqn:Hp;
        [apply wp_ret, HQ | exfalso; exact (truthy_prop _ _ Hsel Hp)].
    - apply wp_ret, HQ. }
  apply Hsel. intros cid. apply wp_bind.
  match goal with |- wp _ _ _ ?s2 => destruct (populate_not_array s2) as [msg Hp] end.
  { intros l. simpl. apply Hv. }
  eapply wp_of_throw; [exact Hp |].
  repeat wp_step. simpl. rewrite <- !app_assoc. repeat split.
Qed.

(** ** The REST fallback *)

(** X12. When the REST request fails (network failure, a response that is
    not OK, or an OK response whose body is not JSON), the resumed
    [fetchActionsRest] returns the empty list without throwing: the cached
    catalog, the select element and the rest of the page are as before, apart
    from one console error line. *)
Theorem fetchActionsRest_failure_keeps_catalog r s :
  match r with
  | Response true _ (Some _) => False
  | _ => True
  end →
  ∃ line,
    ActionSelector.fetchActionsRest_resume r s
    = Return (VArr []) (set_page (set_console (λ l, l ++ [ConsoleError line])) s).
Proof.
  destruct r as [|[] statusText [body|]]; intros H; try contradiction;
    eexists; reflexivity.
Qed.


(** ** The timer of a catalog fetch *)

(** X14. When the timer of the catalog fetch [p] fires, the timer is
    consumed.  If the promise is still pending, it is rejected and the REST
    fallback issues exactly one request, for /actions on localhost:5000; if
    the promise is already settled (the reply arrived in time), the rejection
    is ignored: no request is issued.  In both cases nothing is sent on the
    socket and nothing is alerted. *)
Theorem timer_rejects_pending_fetch_once s k d p :
  timers (runtime s) !! k = Some (d, FetchTimeout p) →
  timers (runtime (step s (RehabEvaluationApp.TimerFires k)))
    = delete k (timers (runtime s)) ∧
  wire (runtime (step s (RehabEvaluationApp.TimerFires k))) = wire (runtime s) ∧
  alerts (page (step s (RehabEvaluationApp.TimerFires k))) = alerts (page s) ∧
  uncaught (page (step s (RehabEvaluationApp.TimerFires k))) = uncaught (page s) ∧
  match fetchPromises (runtime s) !! p with
  | Some Pending =>
      fetchPromises (runtime (step s (RehabEvaluationApp.TimerFires k)))
        = <[p := Rejected]> (fetchPromises (runtime s)) ∧
      restRequests (runtime (step s (RehabEvaluationApp.TimerFires k)))
        = restRequests (runtime s) ++ ["http://localhost:5000/actions"] ∧
      restOutstanding (runtime (step s (RehabEvaluationApp.TimerFires k)))
        = S (restOutstanding (runtime s))
  | _ =>
      fetchPromises (runtime (step s (RehabEvaluationApp.TimerFires k)))
        = fetchPromises (runtime s) ∧
      restRequests (runtime (step s (RehabEvaluationApp.TimerFires k)))
        = restRequests (runtime s) ∧
      restOutstanding (runtime (step s (RehabEvaluationApp.TimerFires k)))
        = restOutstanding (runtime s)
  end.
Proof.
  intros Hk.
  apply (step_wp (λ s',
    timers (runtime s') = _ ∧ wire (runtime s') = _ ∧ alerts (page s') = _ ∧
    uncaught (page s') = _ ∧
    match fetchPromises (runtime s) !! p with
    | Some Pending =>
        fetchPromises (runtime s') = _ ∧ restRequests (runtime s') = _ ∧
        restOutstanding (runtime s') = _
    | _ =>
        fetchPromises (runtime s') = _ ∧ restRequests (runtime s') = _ ∧
        restOutstanding (runtime s') = _
    end)).
  unfold RehabEvaluationApp.handler. apply wp_bind, wp_gets. cbv beta. rewrite Hk.
  destruct (fetchPromises (runtime s) !! p) as [[]|] eqn:Hp;
    repeat wp_step; simpl in *; try congruence; repeat split.
Qed.

(** ** Opening the connection *)

Lemma connection_open_true s : socket (wsClient s) = Some OPEN → connection_open s = true.
Proof. intros H. by apply bool_decide_eq_true. Qed.

(** X15. When the socket of a reachable state opens, the client sets its
    connected flag, and the listener of the application starts one catalog
    fetch: one get_actions command is sent, one pending promise is created,
    its temporary listener is appended to the onMessage listeners, and one
    timer of 5000 ms is armed for it.  The promise of [connect()] is settled,
    nothing is alerted and the evaluating flag is left as it was. *)
Theorem open_requests_catalog s :
  reachable s →
  socket (wsClient s) = Some CONNECTING →
  socket (wsClient (step s RehabEvaluationApp.SocketOpen)) = Some OPEN ∧
  connected (wsClient (step s RehabEvaluationApp.SocketOpen)) = true ∧
  wire (runtime (step s RehabEvaluationApp.SocketOpen))
    = wire (runtime s) ++ [JSON_stringify (VObj [("type", VStr "get_actions")])] ∧
  fetchPromises (runtime (step s RehabEvaluationApp.SocketOpen))
    = fetchPromises (runtime s) ++ [Pending] ∧
  timers (runtime (step s RehabEvaluationApp.SocketOpen))
    = timers (runtime s) ++ [(5000, FetchTimeout (length (fetchPromises (runtime s))))] ∧
  (∃ ls, callbacks (wsClient s) !! "onMessage" = Some ls ∧
         callbacks (wsClient (step s RehabEvaluationApp.SocketOpen)) !! "onMessage"
         = Some (ls ++ [FetchHandleMessage (length (fetchPromises (runtime s)))])) ∧
  connectPromise (runtime (step s RehabEvaluationApp.SocketOpen)) ≠ Pending ∧
  alerts (page (step s RehabEvaluationApp.SocketOpen)) = alerts (page s) ∧
  uncaught (page (step s RehabEvaluationApp.SocketOpen)) = uncaught (page s) ∧
  isEvaluating (step s RehabEvaluationApp.SocketOpen) = isEvaluating s.
Proof.
  intros Hr Hsock.
  destruct (reachable_inv _ Hr) as ((Ho & _ & _ & [ps Hm] & _ & _) & Ht & _).
  pose (R := λ s' : State,
    socket (wsClient s') = Some OPEN ∧ connected (wsClient s') = true ∧
    wire (runtime s')
      = wire (runtime s) ++ [JSON_stringify (VObj [("type", VStr "get_actions")])] ∧
    fetchPromises (runtime s') = fetchPromises (runtime s) ++ [Pending] ∧
    timers (runtime s')
      = timers (runtime s) ++ [(5000, FetchTimeout (length (fetchPromises (runtime s))))] ∧
    (∃ ls, callbacks (wsClient s) !! "onMessage" = Some ls ∧
           callbacks (wsClient s') !! "onMessage"
           = Some (ls ++ [FetchHandleMessage (length (fetchPromises (runtime s)))])) ∧
    connectPromise (runtime s') ≠ Pending ∧ alerts (page s') = alerts (page s) ∧
    uncaught (page s') = uncaught (page s) ∧ isEvaluating s' = isEvaluating s).
  apply (step_wp R).
  unfold RehabEvaluationApp.handler. apply wp_bind, wp_gets. cbv beta. rewrite Hsock.
  apply wp_bind. simple apply wp_modify. cbv beta.
  unfold WebSocketClient.onopen.
  apply wp_bind. simple apply wp_modify. cbv beta.
  apply wp_bind. unfold console_log at 1. simple apply wp_modify. cbv beta.
  apply wp_bind. eapply wp_ws_notify_known; [exact Ho |]. cbn [forEach].
  apply wp_bind, wp_try_catch. cbn [RehabEvaluationApp.callWs].
  apply wp_bind. unfold console_log at 1. simple apply wp_modify. cbv beta.
  unfold resume at 1. apply wp_try_catch.
  unfold RehabEvaluationApp.fetchActions. apply wp_bind.
  unfold ActionSelector.fetchActions.
  apply wp_bind, wp_gets. cbv beta.
  apply wp_bind. simple apply wp_modify. cbv beta.
  apply wp_bind, wp_try_catch.
  apply wp_bind. unfold WebSocketClient.on. simple apply wp_modify. cbv beta.
  apply wp_bind. unfold WebSocketClient.requestActions.
  apply wp_send; [unfold transport_ok; simpl; reflexivity |].
  rewrite connection_open_true by reflexivity.
  unfold ActionSelector.setTimeout. simple apply wp_modify. cbv beta.
  apply wp_ret, wp_ret, wp_ret.
  repeat wp_step; subst R; simpl in *;
    repeat match goal with |- _ ∧ _ => split end;
    try reflexivity; try congruence;
    try (eexists; split; [exact Hm | rewrite lookup_insert_eq, Hm; reflexivity]).
Qed.

(** ** Starting and stopping *)

Lemma startEvaluation_accepted s :
  transport_ok s → exercise_selected s = true → connection_open s = true →
  ∃ s',
    startEvaluation s = Return tt s' ∧
    isEvaluating s' = true ∧
    wire (runtime s') =
      wire (runtime s) ++
      [JSON_stringify
         (VObj [("type", VStr "start_evaluation");
                ("action_id",
                 default VUndefined (prop (selectedAction (actionSelector s)) "id"))])] ∧
    startBtnDisabled (page s') = true ∧
    stopBtnDisabled (page s') = false ∧
    videoPrompt (page s') = (λ _, "none") <$> videoPrompt (page s) ∧
    canvas (page s') = canvas (page s) ∧
    alerts (page s') = alerts (page s) ∧
    uncaught (page s') = uncaught (page s) ∧
    actionSelector s' = actionSelector s ∧
    wsClient s' = wsClient s.
Proof.
  intros Ht Hsel Hopen.
  pose proof Hopen as Ho. unfold connection_open in Ho.
  unfold exercise_selected in Hsel.
  destruct (prop (selectedAction (actionSelector s)) "id") as [id|] eqn:Hid;
    [| exfalso; exact (truthy_prop _ _ Hsel Hid)].
  destruct (prop (selectedAction (actionSelector s)) "name") as [name|] eqn:Hname;
    [| exfalso; exact (truthy_prop _ _ Hsel Hname)].
  unfold RehabEvaluationApp.startEvaluation, ActionSelector.getSelectedAction,
    WebSocketClient.isConnected, WebSocketClient.startEvaluation.
  unfold bind at 1. unfold gets at 1. rewrite Hsel. cbn [negb].
  unfold bind at 1. unfold gets at 1. rewrite Ho. cbn [negb].
  unfold try_catch, bind, modify, console_log, get_prop, ret. simpl.
  rewrite Hid, Hname, send_spec by exact Ht.
  change (connection_open _) with (connection_open s). rewrite Hopen. simpl.
  eexists. split; [reflexivity |]. simpl. repeat split.
Qed.

(** X16. In a reachable state with an exercise selected and the socket open,
    [startEvaluation] returns with the evaluating flag set; it sends exactly
    one start_evaluation command carrying the id of the selected exercise,
    disables the start button, enables the stop button and hides the video
    prompt (when the page has one); nothing is alerted, and the selection, the
    statistics display and the client are as before. *)
Theorem start_accepted_when_ready s :
  reachable s → exercise_selected s = true → connection_open s = true →
  ∃ s',
    startEvaluation s = Return tt s' ∧
    isEvaluating s' = true ∧
    wire (runtime s') =
      wire (runtime s) ++
      [JSON_stringify
         (VObj [("type", VStr "start_evaluation");
                ("action_id",
                 default VUndefined (prop (selectedAction (actionSelector s)) "id"))])] ∧
    startBtnDisabled (page s') = true ∧
    stopBtnDisabled (page s') = false ∧
    videoPrompt (page s') = (λ _, "none") <$> videoPrompt (page s) ∧
    canvas (page s') = canvas (page s) ∧
    alerts (page s') = alerts (page s) ∧
    uncaught (page s') = uncaught (page s) ∧
    actionSelector s' = actionSelector s ∧
    wsClient s' = wsClient s.
Proof.
  intros Hr. destruct (reachable_inv _ Hr) as (_ & Ht & _).
  by apply startEvaluation_accepted.
Qed.

Lemma stopEvaluation_page s :
  transport_ok s →
  ∃ s',
    stopEvaluation s = Return tt s' ∧
    startBtnDisabled (page s') = false ∧
    stopBtnDisabled (page s') = true ∧
    videoPrompt (page s') = (λ _, "block") <$> videoPrompt (page s) ∧
    canvas (page s') = None ∧
    uncaught (page s') = uncaught (page s) ∧
    wsClient s' = wsClient s.
Proof.
  intros Ht.
  unfold RehabEvaluationApp.stopEvaluation, WebSocketClient.stopEvaluation,
    try_catch, bind.
  simpl. rewrite send_spec by exact Ht.
  change (connection_open _) with (connection_open s).
  destruct (connection_open s); simpl; eexists; (split; [reflexivity |]);
    repeat split.
Qed.

(** X17. Start followed by stop, from a reachable state with an exercise
    selected and the socket open: the evaluating flag is cleared again, the
    backend has received the start command and then the stop command, the
    start button is enabled and the stop button disabled, the video prompt is
    shown again, the canvas is cleared and the statistics are reset; the
    selection is kept and nothing is alerted. *)
Theorem start_then_stop_round_trip s :
  reachable s → exercise_selected s = true → connection_open s = true →
  isEvaluating (run s [RehabEvaluationApp.Start; RehabEvaluationApp.Stop]) = false ∧
  wire (runtime (run s [RehabEvaluationApp.Start; RehabEvaluationApp.Stop])) =
    wire (runtime s) ++
    [JSON_stringify
       (VObj [("type", VStr "start_evaluation");
              ("action_id",
               default VUndefined (prop (selectedAction (actionSelector s)) "id"))]);
     JSON_stringify (VObj [("type", VStr "stop_evaluation")])] ∧
  startBtnDisabled (page (run s [RehabEvaluationApp.Start; RehabEvaluationApp.Stop]))
    = false ∧
  stopBtnDisabled (page (run s [RehabEvaluationApp.Start; RehabEvaluationApp.Stop]))
    = true ∧
  videoPrompt (page (run s [RehabEvaluationApp.Start; RehabEvaluationApp.Stop]))
    = (λ _, "block") <$> videoPrompt (page s) ∧
  canvas (page (run s [RehabEvaluationApp.Start; RehabEvaluationApp.Stop])) = None ∧
  stats (run s [RehabEvaluationApp.Start; RehabEvaluationApp.Stop]) = reset_stats ∧
  selectedAction (actionSelector
      (run s [RehabEvaluationApp.Start; RehabEvaluationApp.Stop]))
    = selectedAction (actionSelector s) ∧
  alerts (page (run s [RehabEvaluationApp.Start; RehabEvaluationApp.Stop]))
    = alerts (page s) ∧
  uncaught (page (run s [RehabEvaluationApp.Start; RehabEvaluationApp.Stop]))
    = uncaught (page s).
Proof.
  intros Hr Hsel Hopen. destruct (reachable_inv _ Hr) as (_ & Ht & _).
  destruct (startEvaluation_accepted s Ht Hsel Hopen)
    as (s1 & E1 & A1 & A2 & A3 & A4 & A5 & A6 & A7 & A8 & A9 & A10).
  assert (Ht1 : transport_ok s1) by (unfold transport_ok; rewrite A10; exact Ht).
  assert (Ho1 : connection_open s1 = true)
    by (unfold connection_open; rewrite A10; exact Hopen).
  destruct (stopEvaluation_spec s1 Ht1) as (s2 & E2 & B1 & B2 & B3 & B4 & B5).
  destruct (stopEvaluation_page s1 Ht1) as (s2' & E2' & C1 & C2 & C3 & C4 & C5 & C6).
  rewrite E2 in E2'. injection E2' as <-.
  unfold RehabEvaluationApp.run, RehabEvaluationApp.step, RehabEvaluationApp.handler.
  simpl. rewrite E1, E2. rewrite Ho1 in B4.
  rewrite B1, B2, B3, B4, B5, C1, C2, C3, C4, C5, A2, A5, A7, A8, A9.
  destruct (videoPrompt (page s)); simpl; rewrite <- app_assoc; repeat split.
Qed.

(** ** What the events never do *)

(** X18. Only the start and stop calls change the evaluating flag, and only
    they and an error event of the socket can show an alert: every other
    event (a selection, the opening or closing of the socket, any frame of the
    backend, an error or warning frame included, the timer of a catalog fetch,
    a REST response, a failed one included, a change of the custom actions or
    of the settings) leaves the flag and the alerts as they were, in every
    state. *)
Theorem events_leave_evaluating_flag_and_alerts s e :
  e ≠ RehabEvaluationApp.Start → e ≠ RehabEvaluationApp.Stop →
  isEvaluating (step s e) = isEvaluating s ∧
  (e ≠ RehabEvaluationApp.SocketError → alerts (page (step s e)) = alerts (page s)).
Proof.
  intros H1 H2. split.
  - apply step_unchanged; [| reflexivity].
    destruct e; try congruence; frame.
  - intros H3. destruct e; try congruence;
      try solve [apply (step_unchanged (λ s, alerts (page s))); [frame | reflexivity]].
    apply rest_response_silent.
Qed.

(** ** The commands of the page *)

Lemma run_keeps (I : State → Prop) es s :
  (∀ e, keeps I (handler e)) →
  (∀ err s', I s' → I (set_page (set_uncaught (λ l, l ++ [err])) s')) →
  I s → I (run s es).
Proof.
  intros Hk Hu. revert s. induction es as [|e es IH]; intros s Hs; [exact Hs |].
  simpl. apply IH. apply step_keeps; auto.
Qed.

Ltac sent_update :=
  let ms := fresh "ms" in
  let Hw := fresh "Hw" in
  let Hf := fresh "Hf" in
  intros ? (ms & Hw & Hf);
  first
    [ exact (ex_intro _ ms (conj Hw Hf))
    | eexists (ms ++ [_]); split;
      [ simpl; rewrite Hw, map_app, app_assoc; reflexivity
      | rewrite forallb_app, Hf; reflexivity ] ].

Lemma handler_sent_commands w0 e :
  keeps (sent_commands JSON_stringify w0) (handler e).
Proof. destruct e; keeps_with sent_update. Qed.

(** X19. Whatever the events, the page only ever sends commands of five
    types: every frame handed to the socket during a run is the serialization
    of a command whose type is get_actions, action_select, start_evaluation,
    stop_evaluation or settings_change (never a video frame or an action_stop
    command, although the client has methods for them), and frames already
    sent are never retracted. *)
Theorem page_sends_only_its_commands s es :
  ∃ messages,
    wire (runtime (run s es)) = wire (runtime s) ++ map JSON_stringify messages ∧
    forallb is_page_command messages = true.
Proof.
  apply (run_keeps (sent_commands JSON_stringify (wire (runtime s)))).
  - apply handler_sent_commands.
  - intros err s' H. exact H.
  - exists []. simpl. by rewrite app_nil_r.
Qed.

(** X20. A change of the settings in a reachable state is logged and handed
    to the transport exactly when the socket is open: one settings_change
    command carrying the settings is then sent; otherwise nothing is sent and
    a warning is logged.  In both cases nothing is alerted, no error escapes
    and the evaluating flag is left as it was. *)
Theorem settings_sent_iff_open s settings :
  reachable s →
  wire (runtime (step s (RehabEvaluationApp.SettingsChanged settings))) =
    wire (runtime s) ++
    (if connection_open s
     then [JSON_stringify
             (VObj [("type", VStr "settings_change"); ("settings", settings)])]
     else []) ∧
  console (page (step s (RehabEvaluationApp.SettingsChanged settings))) =
    console (page s) ++
    [ConsoleLog "设置已更改:";
     if connection_open s then ConsoleLog "设置已发送到后端:"
     else ConsoleWarn "WebSocket未连接，无法发送设置"] ∧
  alerts (page (step s (RehabEvaluationApp.SettingsChanged settings)))
    = alerts (page s) ∧
  uncaught (page (step s (RehabEvaluationApp.SettingsChanged settings)))
    = uncaught (page s) ∧
  isEvaluating (step s (RehabEvaluationApp.SettingsChanged settings)) = isEvaluating s.
Proof.
  intros Hr. destruct (reachable_inv _ Hr) as (_ & Ht & _).
  pose (R := λ s' : State,
    wire (runtime s') =
      wire (runtime s) ++
      (if connection_open s
       then [JSON_stringify
               (VObj [("type", VStr "settings_change"); ("settings", settings)])]
       else []) ∧
    console (page s') =
      console (page s) ++
      [ConsoleLog "设置已更改:";
       if connection_open s then ConsoleLog "设置已发送到后端:"
       else ConsoleWarn "WebSocket未连接，无法发送设置"] ∧
    alerts (page s') = alerts (page s) ∧
    uncaught (page s') = uncaught (page s) ∧
    isEvaluating s' = isEvaluating s).
  apply (step_wp R).
  unfold RehabEvaluationApp.handler, RehabEvaluationApp.sendSettingsToBackend,
    WebSocketClient.isConnected, WebSocketClient.sendSettings.
  apply wp_bind. unfold console_log at 1. simple apply wp_modify. cbv beta.
  apply wp_bind, wp_gets. cbv beta. simpl socket.
  fold (connection_open s). subst R. cbv beta.
  destruct (connection_open s) eqn:Hopen.
  - apply wp_bind, wp_send; [unfold transport_ok; simpl; exact Ht |].
    unfold connection_open in *. simpl. rewrite Hopen.
    unfold console_log. simple apply wp_modify. simpl.
    rewrite <- !app_assoc. repeat split.
  - unfold console_warn. simple apply wp_modify. simpl.
    rewrite <- !app_assoc, app_nil_r. repeat split.
Qed.

(** ** The temporary listener of a catalog fetch *)

Ltac registered_update :=
  let Hw := fresh "Hw" in
  let more := fresh "more" in
  let Hm := fresh "Hm" in
  intros ? [Hw [more Hm]];
  first
    [ exact (conj Hw (ex_intro _ more Hm))
    | split;
      [ first [apply wired_on_fetch | apply wired_remove]; exact Hw
      | unfold still_registered; simpl;
        first
          [ destruct Hw as (_ & _ & _ & _ & Hn & _); rewrite Hn;
            exists more; exact Hm
          | match goal with
            | |- context [<[?k := _]> _ !! ?name] =>
                destruct (decide (name = k)) as [-> | Hne];
                [ rewrite lookup_insert_eq, Hm; eexists (more ++ [_]); simpl;
                  by rewrite app_assoc
                | rewrite lookup_insert_ne by congruence; exists more; exact Hm ]
            end ] ] ].

Lemma handler_registered name ls e :
  keeps (λ s, wired s ∧ still_registered name ls s) (handler e).
Proof. destruct e; keeps_with registered_update. Qed.

(** X21. No event removes a listener of the client: in a run from a
    reachable state, the listeners registered under any event name stay
    registered, in the same order, later ones being appended.  In particular
    the temporary listener that a catalog fetch adds under onMessage is never
    removed (when the reply arrives or the timer fires it is removed under the
    name message, which has no entry), and so sees every later frame. *)
Theorem listeners_are_never_removed s es name ls :
  reachable s →
  callbacks (wsClient s) !! name = Some ls →
  ∃ more, callbacks (wsClient (run s es)) !! name = Some (ls ++ more).
Proof.
  intros Hr Hl. destruct (reachable_inv _ Hr) as (Hw & _ & _).
  enough (H : wired (run s es) ∧ still_registered name ls (run s es))
    by exact (proj2 H).
  apply (run_keeps (λ s, wired s ∧ still_registered name ls s)).
  - apply handler_registered.
  - intros err s' H. exact H.
  - split; [exact Hw |]. exists []. by rewrite app_nil_r.
Qed.




(** ** A catalog refresh when the custom-actions manager exists *)






(** ** The change listeners added by a catalog frame *)



(** ** The change event of the select element *)




(** ** A result frame on the display *)




(** ** Initialisation *)

(** X27. [init], from any state of a page that has the elements the scripts
    look up, returns (up to the point where it awaits the connection) leaving
    an idle session: the evaluating flag is
    false, no exercise is selected, the catalog is empty, the socket is
    connecting with the connected flag cleared and the promise of [connect()]
    pending, each of the four events of the client has exactly the listener of
    the application and the selector has the one of the application; nothing
    has been sent or alerted. *)
Theorem init_leaves_idle_connecting_page s0 :
  ∃ s,
    RehabEvaluationApp.init s0 = Return tt s ∧
    isEvaluating s = false ∧
    selectedAction (actionSelector s) = VNull ∧
    actions (actionSelector s) = VArr [] ∧
    socket (wsClient s) = Some CONNECTING ∧
    connected (wsClient s) = false ∧
    connectPromise (runtime s) = Pending ∧
    callbacks (wsClient s) !! "onOpen" = Some [AppOnOpen] ∧
    callbacks (wsClient s) !! "onMessage" = Some [AppOnMessage] ∧
    callbacks (wsClient s) !! "onClose" = Some [AppOnClose] ∧
    callbacks (wsClient s) !! "onError" = Some [AppOnError] ∧
    selectorCallbacks (actionSelector s) !! "onActionChange" = Some [AppOnActionChange] ∧
    wire (runtime s) = wire (runtime s0) ∧
    alerts (page s) = alerts (page s0) ∧
    uncaught (page s) = uncaught (page s0).
Proof.
  eexists. split; [reflexivity |]. simpl. repeat split.
Qed.

End Properties.

(** * The properties on a concrete session *)

Import RehabEvaluationApp.

Lemma demo_connected_reachable : reachable demo_parse demo_stringify demo_connected.
Proof. eexists blank_page, _. reflexivity. Qed.

Lemma demo_ready_reachable : reachable demo_parse demo_stringify demo_ready.
Proof. eexists blank_page, _. reflexivity. Qed.

Lemma demo_evaluating_reachable : reachable demo_parse demo_stringify demo_evaluating.
Proof. eexists blank_page, _. reflexivity. Qed.

(** ** C1 *)

(** C1 fails as stated: with the squat selected and the evaluation started,
    selecting the empty option clears the selection and leaves the evaluating
    flag set. *)
Lemma session_invariant_broken_by_deselect :
  session_invariant demo_connected ∧
  forallb is_session_call [SelectExercise "a"; Start; SelectExercise ""] = true ∧
  ¬ session_invariant
      (demo_run demo_connected [SelectExercise "a"; Start; SelectExercise ""]).
Proof.
  split; [intros H; vm_compute in H; discriminate |].
  split; [reflexivity |].
  intros H. assert (E : isEvaluating
    (demo_run demo_connected [SelectExercise "a"; Start; SelectExercise ""]) = true)
    by (vm_compute; reflexivity).
  destruct (H E) as [Hsel _]. vm_compute in Hsel. discriminate.
Qed.

Lemma session_invariant_unless_cleared_while_evaluating_witness :
  session_invariant demo_connected ∧
  forallb is_session_call
    [SelectExercise ""; SelectExercise "zzz"; SelectExercise "a"; Start] = true ∧
  selection_kept demo_parse demo_stringify demo_connected
    [SelectExercise ""; SelectExercise "zzz"; SelectExercise "a"; Start] = true ∧
  session_invariant
    (demo_run demo_connected
       [SelectExercise ""; SelectExercise "zzz"; SelectExercise "a"; Start]) ∧
  isEvaluating
    (demo_run demo_connected
       [SelectExercise ""; SelectExercise "zzz"; SelectExercise "a"; Start]) = true.
Proof.
  assert (H0 : session_invariant demo_connected)
    by (intros H; vm_compute in H; discriminate).
  split; [exact H0 |]. split; [reflexivity |]. split; [vm_compute; reflexivity |].
  split; [| vm_compute; reflexivity].
  apply (session_invariant_unless_cleared_while_evaluating demo_parse demo_stringify
           [SelectExercise ""; SelectExercise "zzz"; SelectExercise "a"; Start]
           demo_connected H0 eq_refl).
  vm_compute; reflexivity.
Defined.

(** ** C2 *)

(** C2 fails as stated: when the socket closes, or errors, during an
    evaluation, the session stays in Evaluating and nothing is shown. *)
Lemma connection_loss_does_not_stop_evaluation :
  isEvaluating demo_evaluating = true ∧
  connection_open demo_evaluating = true ∧
  isEvaluating (demo_step demo_evaluating SocketClose) = true ∧
  connection_open (demo_step demo_evaluating SocketClose) = false ∧
  alerts (page (demo_step demo_evaluating SocketClose)) = [] ∧
  isEvaluating (demo_step demo_evaluating SocketError) = true ∧
  alerts (page (demo_step demo_evaluating SocketError)) = [].
Proof. vm_compute. repeat split. Qed.

Lemma connection_loss_leaves_session_evaluating_witness :
  reachable demo_parse demo_stringify demo_evaluating ∧
  isEvaluating demo_evaluating = true ∧
  isEvaluating (demo_step demo_evaluating SocketClose) = true ∧
  wire (runtime (demo_step demo_evaluating SocketClose))
    = wire (runtime demo_evaluating).
Proof.
  split; [exact demo_evaluating_reachable |]. split; [reflexivity |].
  destruct (connection_loss_leaves_session_evaluating demo_parse demo_stringify
              demo_evaluating SocketClose demo_evaluating_reachable eq_refl
              (or_introl eq_refl)) as (H1 & _ & _ & H4 & _).
  split; [exact H1 | exact H4].
Defined.

(** ** C3, C4, C8 *)

Lemma start_refused_without_preconditions_witness :
  exercise_selected demo_connected = false ∧
  ∃ s',
    startEvaluation demo_stringify demo_connected = Return tt s' ∧
    alerts (page s') = ["请先选择要评估的动作"] ∧
    wire (runtime s') = wire (runtime demo_connected) ∧
    isEvaluating s' = false.
Proof.
  split; [reflexivity |].
  destruct (start_refused_without_preconditions demo_stringify demo_connected
              (or_introl eq_refl)) as (s' & H1 & H2 & H3 & H4 & _).
  exists s'. split; [exact H1 |]. split; [rewrite H2; reflexivity |].
  split; [exact H3 | rewrite H4; reflexivity].
Defined.

Lemma stop_resets_session_witness :
  reachable demo_parse demo_stringify demo_evaluating ∧
  ∃ s',
    stopEvaluation demo_stringify demo_evaluating = Return tt s' ∧
    isEvaluating s' = false ∧
    stats s' = reset_stats ∧
    wire (runtime s') = wire (runtime demo_evaluating) ++ ["stop_evaluation"].
Proof.
  split; [exact demo_evaluating_reachable |].
  destruct (stop_resets_session demo_parse demo_stringify demo_evaluating
              demo_evaluating_reachable) as (s' & H1 & H2 & _ & H4 & H5 & _).
  exists s'. repeat split; assumption.
Defined.

Lemma send_accepted_iff_open_witness :
  (transport_ok fresh_client ∧
   WebSocketClient.send demo_stringify (VObj [("type", VStr "get_actions")])
     fresh_client
   = Return false
       (set_page (set_console
          (λ l, l ++ [ConsoleError "WebSocket未连接，无法发送消息"])) fresh_client)) ∧
  (transport_ok demo_connected ∧
   WebSocketClient.send demo_stringify (VObj [("type", VStr "get_actions")])
     demo_connected
   = Return true
       (set_runtime (set_wire (λ l, l ++ ["get_actions"])) demo_connected)).
Proof.
  assert (H0 : transport_ok fresh_client) by reflexivity.
  assert (H1 : transport_ok demo_connected) by (vm_compute; reflexivity).
  split; (split; [assumption |]).
  - exact (send_accepted_iff_open demo_stringify fresh_client
             (VObj [("type", VStr "get_actions")]) H0).
  - exact (send_accepted_iff_open demo_stringify demo_connected
             (VObj [("type", VStr "get_actions")]) H1).
Defined.

(** ** C5 *)

Lemma results_forwarded_once_in_order_witness :
  reachable demo_parse demo_stringify demo_evaluating ∧
  connection_open demo_evaluating = true ∧
  sink (runtime (demo_run demo_evaluating
    (map SocketMessage
       ["{'type':'result','count':3,'stage':'up','angle':142.7}";
        "{'type':'pong'}";
        "{'type':'processed_frame','data':'/9j/4AAQ'}"])))
  = [UpdateStats (VObj [("count", VNum 3); ("stage", VStr "up");
                        ("angle", VNum (1427 # 10))]);
     HandleProcessedFrame
       (VObj [("type", VStr "processed_frame"); ("data", VStr "/9j/4AAQ")])] ∧
  stats (demo_run demo_evaluating
    [Stop; SocketMessage "{'type':'result','count':3,'stage':'up','angle':142.7}"])
  = reset_stats.
Proof.
  split; [exact demo_evaluating_reachable |]. split; [reflexivity |].
  destruct (results_forwarded_once_in_order demo_parse demo_stringify
    ["{'type':'result','count':3,'stage':'up','angle':142.7}";
     "{'type':'pong'}";
     "{'type':'processed_frame','data':'/9j/4AAQ'}"]
    demo_evaluating demo_evaluating_reachable eq_refl) as [H1 H2].
  split; [exact H1 | apply H2].
Defined.

(** ** C7 *)



(** ** C9 *)

(** C9 on a run where no reply to get_actions arrives and the REST request
    fails.  Opening the socket registers one timer of 5000 ms; when it fires
    the promise is rejected and exactly one REST request is issued; when that
    request fails (network failure, or a response that is not OK), no further
    request is made, and no alert is shown: the failure reaches the console
    only, since [fetchActionsRest] catches it and returns an empty list. *)
Theorem catalog_fetch_failure_not_surfaced :
  timers (runtime (demo_run (state_of (init blank_page)) [SocketOpen]))
    = [(5000, FetchTimeout 0)] ∧
  fetchPromises (runtime (demo_run (state_of (init blank_page))
    [SocketOpen; TimerFires 0])) = [Rejected] ∧
  restRequests (runtime (demo_run (state_of (init blank_page))
    [SocketOpen; TimerFires 0])) = ["http://localhost:5000/actions"] ∧
  alerts (page (demo_run (state_of (init blank_page))
    [SocketOpen; TimerFires 0; RestArrives NetworkError])) = [] ∧
  restRequests (runtime (demo_run (state_of (init blank_page))
    [SocketOpen; TimerFires 0; RestArrives NetworkError]))
    = ["http://localhost:5000/actions"] ∧
  last (console (page (demo_run (state_of (init blank_page))
    [SocketOpen; TimerFires 0; RestArrives NetworkError])))
    = Some (ConsoleError "获取动作列表出错:") ∧
  alerts (page (demo_run (state_of (init blank_page))
    [SocketOpen; TimerFires 0;
     RestArrives (Response false "Internal Server Error" None)])) = [] ∧
  last (console (page (demo_run (state_of (init blank_page))
    [SocketOpen; TimerFires 0;
     RestArrives (Response false "Internal Server Error" None)])))
    = Some (ConsoleError "获取动作列表失败:").
Proof. vm_compute. repeat split. Qed.

(** ** C10 *)

(** Two listeners under onMessage, the first of which throws: the error is
    logged, the second listener is called, and the dispatch returns.  Under
    onActionChange both listeners throw after one log line. *)
Lemma notifyCallbacks_isolates_listeners_witness :
  forallb plain_name ["onOpen"; "onClose"; "onMessage"; "onError"; "onActionChange"]
    = true ∧
  (returns (WebSocketClient._notifyCallbacks demo_call "onMessage" (MessageEvent "x")
              demo_listeners) = true ∧
   console (page (state_of
     (WebSocketClient._notifyCallbacks demo_call "onMessage" (MessageEvent "x")
        demo_listeners)))
   = [ConsoleError "执行onMessage回调时出错:"; ConsoleLog "second listener called"]) ∧
  (returns (ActionSelector._notifyCallbacks demo_selector_call "onActionChange" VNull
              demo_listeners) = true ∧
   console (page (state_of
     (ActionSelector._notifyCallbacks demo_selector_call "onActionChange" VNull
        demo_listeners)))
   = [ConsoleLog "listener called"; ConsoleError "执行onActionChange回调时出错:";
      ConsoleLog "listener called"; ConsoleError "执行onActionChange回调时出错:"]).
Proof.
  split; [reflexivity |]. split.
  - rewrite (proj1 (notifyCallbacks_isolates_listeners "onMessage" eq_refl)
               demo_call (MessageEvent "x") demo_listeners).
    split; vm_compute; reflexivity.
  - rewrite (proj2 (notifyCallbacks_isolates_listeners "onActionChange" eq_refl)
               demo_selector_call VNull demo_listeners).
    split; vm_compute; reflexivity.
Defined.

(** * The further properties on the concrete session *)

Lemma demo_loaded_reachable : reachable demo_parse demo_stringify demo_loaded.
Proof. exists blank_page, []. reflexivity. Qed.

Lemma demo_opened_reachable : reachable demo_parse demo_stringify demo_opened.
Proof. eexists blank_page, _. reflexivity. Qed.

Lemma removeEventListener_undoes_on_witness :
  plain_name "onMessage" = true ∧
  callbacks (wsClient demo_connected) !! "onMessage"
    = Some [AppOnMessage; FetchHandleMessage 0] ∧
  wsClient (state_of (WebSocketClient.removeEventListener "onMessage" (FetchHandleMessage 7)
    (state_of (WebSocketClient.on "onMessage" (FetchHandleMessage 7) demo_connected))))
  = wsClient demo_connected.
Proof.
  split; [reflexivity |]. split; [reflexivity |].
  apply (proj2 (removeEventListener_undoes_on "onMessage" (FetchHandleMessage 7)
                  demo_connected eq_refl) [AppOnMessage; FetchHandleMessage 0] eq_refl).
  intros Hin. apply elem_of_cons in Hin as [Hin | Hin]; [discriminate Hin |].
  apply elem_of_cons in Hin as [Hin | Hin]; [discriminate Hin |].
  exact (proj1 (elem_of_nil _) Hin).
Defined.

Lemma selector_on_unknown_name_and_no_removal_witness :
  plain_name "onSelect" = true ∧
  selectorCallbacks (actionSelector demo_connected) !! "onSelect" = None ∧
  ActionSelector._notifyCallbacks (callSelector demo_stringify) "onSelect" VNull
    (state_of (ActionSelector.on "onSelect" AppOnActionChange demo_connected))
  = Return tt (state_of (ActionSelector.on "onSelect" AppOnActionChange demo_connected)).
Proof.
  split; [reflexivity |]. split; [reflexivity |].
  exact (proj2 (proj1 (selector_on_unknown_name_and_no_removal
                         (callSelector demo_stringify) "onSelect" AppOnActionChange
                         VNull demo_connected eq_refl) eq_refl)).
Defined.

Lemma disconnect_stops_sending_witness :
  transport_ok demo_connected ∧
  ∃ s1,
    WebSocketClient.disconnect demo_connected = Return tt s1 ∧
    WebSocketClient.isConnected s1 = Return false s1 ∧
    WebSocketClient.getConnectionStatus s1 = Return true s1 ∧
    WebSocketClient.send demo_stringify (VObj [("type", VStr "get_actions")]) s1
    = Return false
        (set_page (set_console
           (λ l, l ++ [ConsoleError "WebSocket未连接，无法发送消息"])) s1).
Proof.
  assert (H : transport_ok demo_connected) by (vm_compute; reflexivity).
  split; [exact H |].
  destruct (disconnect_stops_sending demo_stringify demo_connected
              (VObj [("type", VStr "get_actions")]) H) as (s1 & H1 & H2 & H3 & H4 & _).
  exists s1. split; [exact H1 |]. split; [exact H2 |]. split; [exact H3 | exact H4].
Defined.


Lemma select_unknown_clears_silently_witness :
  find_by_id (VStr "zzz") [squat] = Some None ∧
  selectedAction (actionSelector demo_ready) = squat ∧
  selectedAction (actionSelector (demo_step demo_ready (SelectExercise "zzz")))
    = VUndefined ∧
  currentActionElement (actionSelector (demo_step demo_ready (SelectExercise "zzz")))
    = ToString (VStr "Squat") ∧
  runtime (demo_step demo_ready (SelectExercise "zzz")) = runtime demo_ready.
Proof.
  split; [reflexivity |]. split; [reflexivity |].
  destruct (select_unknown_clears_silently demo_parse demo_stringify demo_ready "zzz"
              [squat] eq_refl ltac:(discriminate) eq_refl) as (H1 & H2 & _ & H4 & _).
  split; [exact H1 |]. split; [exact H2 | exact H4].
Defined.

Lemma select_empty_deselects_witness :
  reachable demo_parse demo_stringify demo_ready ∧
  selectedAction (actionSelector demo_ready) = squat ∧
  selectedAction (actionSelector (demo_step demo_ready (SelectExercise ""))) = VNull ∧
  wire (runtime (demo_step demo_ready (SelectExercise ""))) = wire (runtime demo_ready).
Proof.
  split; [exact demo_ready_reachable |]. split; [reflexivity |].
  destruct (select_empty_deselects demo_parse demo_stringify demo_ready
              demo_ready_reachable) as (H1 & _ & _ & H4 & _).
  split; [exact H1 | exact H4].
Defined.

Lemma select_with_broken_catalog_raises_witness :
  actions (actionSelector blank_page) = VUndefined ∧
  ∃ msg,
    demo_step blank_page (SelectExercise "a")
    = set_page (set_uncaught (λ l, l ++ [TypeError msg])) blank_page.
Proof.
  split; [reflexivity |].
  exact (select_with_broken_catalog_raises demo_parse demo_stringify blank_page "a"
           ltac:(discriminate) I).
Defined.




Lemma actions_list_without_array_is_stored_witness :
  edge_parse "{'type':'actions_list'}" = Some (VObj [("type", VStr "actions_list")]) ∧
  ∃ s',
    handleWebSocketMessage edge_parse demo_stringify
      (MessageEvent "{'type':'actions_list'}") demo_ready = Return tt s' ∧
    actions (actionSelector s') = VUndefined ∧
    options (selectElement (actionSelector s')) = [(Lit "", Lit "请选择动作")] ∧
    selectedAction (actionSelector s') = squat.
Proof.
  split; [reflexivity |].
  destruct (actions_list_without_array_is_stored edge_parse demo_stringify demo_ready
              "{'type':'actions_list'}" (VObj [("type", VStr "actions_list")])
              VUndefined eq_refl eq_refl eq_refl ltac:(intros l; discriminate))
    as (s' & H1 & H2 & H3 & H4 & _).
  exists s'. split; [exact H1 |]. split; [exact H2 |]. split; [exact H3 | exact H4].
Defined.

Lemma fetchActionsRest_failure_keeps_catalog_witness :
  ∃ line,
    ActionSelector.fetchActionsRest_resume (Response false "Internal Server Error" None)
      demo_connected
    = Return (VArr [])
        (set_page (set_console (λ l, l ++ [ConsoleError line])) demo_connected).
Proof.
  exact (fetchActionsRest_failure_keeps_catalog
           (Response false "Internal Server Error" None) demo_connected I).
Defined.


Lemma timer_rejects_pending_fetch_once_witness :
  timers (runtime demo_opened) = [(5000, FetchTimeout 0)] ∧
  fetchPromises (runtime demo_opened) = [Pending] ∧
  fetchPromises (runtime (demo_step demo_opened (TimerFires 0))) = [Rejected] ∧
  restRequests (runtime (demo_step demo_opened (TimerFires 0)))
    = ["http://localhost:5000/actions"] ∧
  timers (runtime (demo_step demo_opened (TimerFires 0))) = [].
Proof.
  split; [reflexivity |]. split; [reflexivity |].
  destruct (timer_rejects_pending_fetch_once demo_parse demo_stringify demo_opened
              0 5000 0 eq_refl) as (H1 & _ & _ & _ & H5).
  split; [exact (proj1 H5) |]. split; [exact (proj1 (proj2 H5)) | exact H1].
Defined.

Lemma open_requests_catalog_witness :
  reachable demo_parse demo_stringify demo_loaded ∧
  socket (wsClient demo_loaded) = Some CONNECTING ∧
  wire (runtime (demo_step demo_loaded SocketOpen)) = ["get_actions"] ∧
  fetchPromises (runtime (demo_step demo_loaded SocketOpen)) = [Pending] ∧
  timers (runtime (demo_step demo_loaded SocketOpen)) = [(5000, FetchTimeout 0)].
Proof.
  split; [exact demo_loaded_reachable |]. split; [reflexivity |].
  destruct (open_requests_catalog demo_parse demo_stringify demo_loaded
              demo_loaded_reachable eq_refl) as (_ & _ & H3 & H4 & H5 & _).
  split; [exact H3 |]. split; [exact H4 | exact H5].
Defined.

Lemma start_accepted_when_ready_witness :
  reachable demo_parse demo_stringify demo_ready ∧
  exercise_selected demo_ready = true ∧
  connection_open demo_ready = true ∧
  ∃ s',
    startEvaluation demo_stringify demo_ready = Return tt s' ∧
    isEvaluating s' = true ∧
    wire (runtime s') = wire (runtime demo_ready) ++ ["start_evaluation:a"] ∧
    startBtnDisabled (page s') = true ∧
    stopBtnDisabled (page s') = false.
Proof.
  split; [exact demo_ready_reachable |]. split; [reflexivity |]. split; [reflexivity |].
  destruct (start_accepted_when_ready demo_parse demo_stringify demo_ready
              demo_ready_reachable eq_refl eq_refl)
    as (s' & H1 & H2 & H3 & H4 & H5 & _).
  exists s'. split; [exact H1 |]. split; [exact H2 |]. split; [exact H3 |].
  split; [exact H4 | exact H5].
Defined.

Lemma start_then_stop_round_trip_witness :
  reachable demo_parse demo_stringify demo_ready ∧
  isEvaluating (demo_run demo_ready [Start; Stop]) = false ∧
  wire (runtime (demo_run demo_ready [Start; Stop]))
    = wire (runtime demo_ready) ++ ["start_evaluation:a"; "stop_evaluation"] ∧
  startBtnDisabled (page (demo_run demo_ready [Start; Stop])) = false ∧
  stopBtnDisabled (page (demo_run demo_ready [Start; Stop])) = true ∧
  videoPrompt (page (demo_run demo_ready [Start; Stop])) = Some "block".
Proof.
  split; [exact demo_ready_reachable |].
  destruct (start_then_stop_round_trip demo_parse demo_stringify demo_ready
              demo_ready_reachable eq_refl eq_refl)
    as (H1 & H2 & H3 & H4 & H5 & _).
  split; [exact H1 |]. split; [exact H2 |]. split; [exact H3 |].
  split; [exact H4 | exact H5].
Defined.

Lemma events_leave_evaluating_flag_and_alerts_witness :
  isEvaluating demo_evaluating = true ∧
  isEvaluating (demo_step demo_evaluating (SelectExercise "")) = true ∧
  isEvaluating (demo_step demo_evaluating SocketClose) = true ∧
  alerts (page (demo_step demo_evaluating (RestArrives NetworkError))) = [].
Proof.
  split; [reflexivity |].
  split; [| split].
  - exact (proj1 (events_leave_evaluating_flag_and_alerts demo_parse demo_stringify
             demo_evaluating (SelectExercise "")
             ltac:(discriminate) ltac:(discriminate))).
  - exact (proj1 (events_leave_evaluating_flag_and_alerts demo_parse demo_stringify
             demo_evaluating SocketClose ltac:(discriminate) ltac:(discriminate))).
  - exact (proj2 (events_leave_evaluating_flag_and_alerts demo_parse demo_stringify
             demo_evaluating (RestArrives NetworkError)
             ltac:(discriminate) ltac:(discriminate)) ltac:(discriminate)).
Defined.

Lemma settings_sent_iff_open_witness :
  reachable demo_parse demo_stringify demo_connected ∧
  wire (runtime (demo_step demo_connected
    (SettingsChanged (VObj [("confidence", VNum (1 # 2)); ("imageSize", VNum 640);
                            ("lineWidth", VNum 3)]))))
  = wire (runtime demo_connected) ++ ["settings_change"] ∧
  wire (runtime (demo_step demo_loaded
    (SettingsChanged (VObj [("confidence", VNum (1 # 2)); ("imageSize", VNum 640);
                            ("lineWidth", VNum 3)]))))
  = wire (runtime demo_loaded) ++ [].
Proof.
  split; [exact demo_connected_reachable |].
  split.
  - exact (proj1 (settings_sent_iff_open demo_parse demo_stringify demo_connected
             (VObj [("confidence", VNum (1 # 2)); ("imageSize", VNum 640);
                    ("lineWidth", VNum 3)]) demo_connected_reachable)).
  - exact (proj1 (settings_sent_iff_open demo_parse demo_stringify demo_loaded
             (VObj [("confidence", VNum (1 # 2)); ("imageSize", VNum 640);
                    ("lineWidth", VNum 3)]) demo_loaded_reachable)).
Defined.

Lemma listeners_are_never_removed_witness :
  reachable demo_parse demo_stringify demo_opened ∧
  callbacks (wsClient demo_opened) !! "onMessage"
    = Some [AppOnMessage; FetchHandleMessage 0] ∧
  ∃ more,
    callbacks (wsClient (demo_run demo_opened
      [SocketMessage "{'type':'actions_list','actions':[squat]}"; TimerFires 0]))
      !! "onMessage"
    = Some ([AppOnMessage; FetchHandleMessage 0] ++ more).
Proof.
  split; [exact demo_opened_reachable |]. split; [reflexivity |].
  exact (listeners_are_never_removed demo_parse demo_stringify demo_opened
           [SocketMessage "{'type':'actions_list','actions':[squat]}"; TimerFires 0]
           "onMessage" [AppOnMessage; FetchHandleMessage 0]
           demo_opened_reachable eq_refl).
Defined.





